(** * PaymentOps war-room dashboard: client state containers and fallback simulator

    Shallow embedding of
      - [frontend/src/app/war-room/page.tsx]  (component [WarRoomDashboard]:
        WebSocket dispatcher, log store, approval queue, intervention ledger)
      - [hooks/useSimulation]                  (narration and drift generators)
      - [types/dashboard]                      (the record types)
      - [components/AgentTerminal.tsx]         (the log filter)
      - [InterventionTimeline], [MonitoringView]
        ([formatTimeDiff], [getSuccessRateColor])

    React state is modelled by explicit state passing: every
    [setX(prev => e)] becomes a pure function on the component state.
    JavaScript numbers are modelled as exact rationals ([Q]), that is as
    finite values without rounding: the code only adds, subtracts, scales,
    floors, compares and clamps them.  The [Record<string, unknown>] members
    ([metadata], [params]) are never inspected and are kept as an optional
    opaque string.  The values
    returned by [Math.random()], [Date.now()] and [new Date().toISOString()]
    are inputs of the functions that call them. *)

From Stdlib Require Import QArith Qround Lqa.
From stdpp Require Import base list strings gmap pretty.

Local Open Scope Z_scope.

(** ** JavaScript primitives used by the code *)

Module JS.

(** [Array.prototype.slice(start, end)]: a negative index counts from the
    end, every index is clamped to [0, length], [end] defaults to the
    length. *)
Definition relative_index (len i : Z) : Z :=
  if i <? 0 then Z.max (len + i) 0 else Z.min i len.

Definition slice {A} (l : list A) (start : Z) (end_ : option Z) : list A :=
  let len := Z.of_nat (length l) in
  let k := relative_index len start in
  let final := match end_ with
               | None => len
               | Some e => relative_index len e
               end in
  take (Z.to_nat (final - k)) (drop (Z.to_nat k) l).

(** [Math.max], [Math.min], [Math.floor] on finite numbers. *)
Definition Math_max (a b : Q) : Q := if Qle_bool a b then b else a.
Definition Math_min (a b : Q) : Q := if Qle_bool a b then a else b.
Definition Math_floor (a : Q) : Q := inject_Z (Qfloor a).

(** [a < b] on numbers. *)
Definition lt (a b : Q) : bool := negb (Qle_bool b a).

(** [w || d] on a number: [0] is falsy. *)
Definition or_default (w d : Q) : Q := if Qeq_bool w 0 then d else w.

(** The wall clock read by one handler run: [Date.now()] and
    [new Date().toISOString()]. *)
Record Clock := { now : Z; toISOString : string }.

End JS.

(** ** Data model ([types/dashboard]) *)

Module Metrics.
Record t := {
  success_rate : Q;
  avg_latency : Q;
  transaction_volume : Q;
  error_rate : Q;
  timestamp : string }.
End Metrics.
Abbreviation SystemMetrics := Metrics.t.

Module Bank.
Inductive Status := healthy | degraded | down.

Record t := {
  name : string;
  display_name : string;
  status : Status;
  success_rate : Q;
  avg_latency : Q;
  weight : Q;
  last_updated : string }.
End Bank.
Abbreviation BankHealth := Bank.t.

Module Log.
Inductive Stage := observe | reason | decide | act | learn | system.
Inductive Kind := thought | prompt | response | action | error.

Record t := {
  id : string;
  timestamp : string;
  stage : Stage;
  type : Kind;
  content : string;
  metadata : option string }.
End Log.
Abbreviation AgentLog := Log.t.

Module Intervention.
Record t := {
  id : string;
  timestamp : string;
  type : string;
  action : string;
  description : string;
  params : option string;
  success : bool;
  requires_approval : bool;
  approved_by : option string;
  canRollback : bool;
  rollbackAction : option string }.
End Intervention.
Abbreviation Intervention := Intervention.t.

Module Approval.
(** The [intervention] member of an approval request. *)
Record Proposal := {
  type : string;
  action : string;
  description : string;
  params : option string }.

Record t := {
  intervention_id : string;
  intervention : Proposal;
  risk_score : Q;
  hypothesis : string }.
End Approval.
Abbreviation ApprovalRequest := Approval.t.

(** ** Bounded log store ([agentLogs]) *)

(** [setAgentLogs((prev) => [...prev.slice(-100), log])] *)
Definition addAgentLog (log : AgentLog) (prev : list AgentLog) : list AgentLog :=
  JS.slice prev (-100) None ++ [log].

(** The entry [addSystemLog(content)] builds. *)
Definition system_entry (c : JS.Clock) (text : string) : AgentLog :=
  {| Log.id := "sys_" +:+ pretty (JS.now c);
     Log.timestamp := JS.toISOString c;
     Log.stage := Log.system;
     Log.type := Log.thought;
     Log.content := text;
     Log.metadata := None |}.

(** [setAgentLogs((prev) => [...prev.slice(-100), {...}])] *)
Definition addSystemLog (c : JS.Clock) (text : string) (prev : list AgentLog)
  : list AgentLog :=
  JS.slice prev (-100) None ++ [system_entry c text].

(** The two writers of the log store.  The dispatcher ([thought] and
    [intervention] messages), the simulator and [handleApprove] write through
    [addAgentLog]; [ws.onopen] and [triggerScenario] through [addSystemLog]. *)
Inductive LogAppend :=
| AgentAppend (log : AgentLog)
| SystemAppend (c : JS.Clock) (text : string).

Definition appended (a : LogAppend) : AgentLog :=
  match a with
  | AgentAppend log => log
  | SystemAppend c text => system_entry c text
  end.

Definition append (a : LogAppend) (prev : list AgentLog) : list AgentLog :=
  match a with
  | AgentAppend log => addAgentLog log prev
  | SystemAppend c text => addSystemLog c text prev
  end.

(** The store after a sequence of appends, oldest append first. *)
Definition appends (ops : list LogAppend) (store : list AgentLog) : list AgentLog :=
  foldl (fun s a => append a s) store ops.

(** The [n] last elements of a list, in order. *)
Definition most_recent {A} (n : nat) (l : list A) : list A :=
  drop (length l - n) l.

(** ** Component state of [WarRoomDashboard] *)

Record Dashboard := {
  metrics : SystemMetrics;
  banks : list BankHealth;
  agentLogs : list AgentLog;
  interventions : list Intervention;
  currentStage : Log.Stage;
  pendingApprovals : list ApprovalRequest;
  isConnected : bool;
  simulatorRunning : bool;
  agentRunning : bool }.

(** The [useState] setters, each taking an updater [prev => next]. *)
Definition setMetrics (f : SystemMetrics -> SystemMetrics) (st : Dashboard) :=
  {| metrics := f (metrics st); banks := banks st; agentLogs := agentLogs st;
     interventions := interventions st; currentStage := currentStage st;
     pendingApprovals := pendingApprovals st; isConnected := isConnected st;
     simulatorRunning := simulatorRunning st; agentRunning := agentRunning st |}.

Definition setBanks (f : list BankHealth -> list BankHealth) (st : Dashboard) :=
  {| metrics := metrics st; banks := f (banks st); agentLogs := agentLogs st;
     interventions := interventions st; currentStage := currentStage st;
     pendingApprovals := pendingApprovals st; isConnected := isConnected st;
     simulatorRunning := simulatorRunning st; agentRunning := agentRunning st |}.

Definition setAgentLogs (f : list AgentLog -> list AgentLog) (st : Dashboard) :=
  {| metrics := metrics st; banks := banks st; agentLogs := f (agentLogs st);
     interventions := interventions st; currentStage := currentStage st;
     pendingApprovals := pendingApprovals st; isConnected := isConnected st;
     simulatorRunning := simulatorRunning st; agentRunning := agentRunning st |}.

Definition setInterventions (f : list Intervention -> list Intervention)
    (st : Dashboard) :=
  {| metrics := metrics st; banks := banks st; agentLogs := agentLogs st;
     interventions := f (interventions st); currentStage := currentStage st;
     pendingApprovals := pendingApprovals st; isConnected := isConnected st;
     simulatorRunning := simulatorRunning st; agentRunning := agentRunning st |}.

Definition setCurrentStage (s : Log.Stage) (st : Dashboard) :=
  {| metrics := metrics st; banks := banks st; agentLogs := agentLogs st;
     interventions := interventions st; currentStage := s;
     pendingApprovals := pendingApprovals st; isConnected := isConnected st;
     simulatorRunning := simulatorRunning st; agentRunning := agentRunning st |}.

Definition setPendingApprovals
    (f : list ApprovalRequest -> list ApprovalRequest) (st : Dashboard) :=
  {| metrics := metrics st; banks := banks st; agentLogs := agentLogs st;
     interventions := interventions st; currentStage := currentStage st;
     pendingApprovals := f (pendingApprovals st); isConnected := isConnected st;
     simulatorRunning := simulatorRunning st; agentRunning := agentRunning st |}.

Definition setIsConnected (b : bool) (st : Dashboard) :=
  {| metrics := metrics st; banks := banks st; agentLogs := agentLogs st;
     interventions := interventions st; currentStage := currentStage st;
     pendingApprovals := pendingApprovals st; isConnected := b;
     simulatorRunning := simulatorRunning st; agentRunning := agentRunning st |}.

Definition setSimulatorRunning (b : bool) (st : Dashboard) :=
  {| metrics := metrics st; banks := banks st; agentLogs := agentLogs st;
     interventions := interventions st; currentStage := currentStage st;
     pendingApprovals := pendingApprovals st; isConnected := isConnected st;
     simulatorRunning := b; agentRunning := agentRunning st |}.

Definition setAgentRunning (b : bool) (st : Dashboard) :=
  {| metrics := metrics st; banks := banks st; agentLogs := agentLogs st;
     interventions := interventions st; currentStage := currentStage st;
     pendingApprovals := pendingApprovals st; isConnected := isConnected st;
     simulatorRunning := simulatorRunning st; agentRunning := b |}.

(** The initial values passed to [useState]. *)
Definition initial (c : JS.Clock) : Dashboard :=
  let bank n d s l w :=
    {| Bank.name := n; Bank.display_name := d; Bank.status := Bank.healthy;
       Bank.success_rate := s; Bank.avg_latency := l; Bank.weight := w;
       Bank.last_updated := JS.toISOString c |} in
  {| metrics := {| Metrics.success_rate := 97.5; Metrics.avg_latency := 215;
                   Metrics.transaction_volume := 12450;
                   Metrics.error_rate := 2.5;
                   Metrics.timestamp := JS.toISOString c |};
     banks := [ bank "HDFC" "HDFC Bank" 98.2%Q 180%Q 40%Q;
                bank "ICICI" "ICICI Bank" 97.8%Q 195%Q 30%Q;
                bank "SBI" "SBI Bank" 96.5%Q 220%Q 20%Q;
                bank "AXIS" "Axis Bank" 97.1%Q 205%Q 10%Q ];
     agentLogs := [];
     interventions := [];
     currentStage := Log.observe;
     pendingApprovals := [];
     isConnected := false;
     simulatorRunning := false;
     agentRunning := true |}.

(** ** Intervention ledger *)

(** The array literal tested with [.includes(data.data.action)]. *)
Definition reversible_actions : list string :=
  ["switch_gateway"; "adjust_retry_config"; "suppress_payment_method"].

Definition includes (l : list string) (x : string) : bool :=
  existsb (String.eqb x) l.

(** The [rollbacks] table of [getRollbackAction]. *)
Definition rollbacks : gmap string string :=
  list_to_map
    [ ("switch_gateway", "Restore original routing weights");
      ("adjust_retry_config", "Revert to previous retry settings");
      ("suppress_payment_method", "Re-enable payment method") ].

Definition getRollbackAction (action : string) : option string :=
  rollbacks !! action.

(** [{...data.data, canRollback: ..., rollbackAction: ...}] *)
Definition recorded (data : Intervention) : Intervention :=
  {| Intervention.id := Intervention.id data;
     Intervention.timestamp := Intervention.timestamp data;
     Intervention.type := Intervention.type data;
     Intervention.action := Intervention.action data;
     Intervention.description := Intervention.description data;
     Intervention.params := Intervention.params data;
     Intervention.success := Intervention.success data;
     Intervention.requires_approval := Intervention.requires_approval data;
     Intervention.approved_by := Intervention.approved_by data;
     Intervention.canRollback :=
       includes reversible_actions (Intervention.action data);
     Intervention.rollbackAction :=
       getRollbackAction (Intervention.action data) |}.

(** [(prev) => [intervention, ...prev.slice(0, 49)]] *)
Definition record_intervention (data : Intervention) (prev : list Intervention)
  : list Intervention :=
  recorded data :: JS.slice prev 0 (Some 49).

(** The record [handleApprove] builds, the same in its [try] and [catch]
    branches:
    [{...approval.intervention, id: approval.intervention_id, timestamp: ...,
      type: "switch_gateway", action: "switch_gateway", success: true,
      requires_approval: true, approved_by: "human", canRollback: true}] *)
Definition approved_record (c : JS.Clock) (approval : ApprovalRequest)
  : Intervention :=
  let i := Approval.intervention approval in
  {| Intervention.id := Approval.intervention_id approval;
     Intervention.timestamp := JS.toISOString c;
     Intervention.type := "switch_gateway";
     Intervention.action := "switch_gateway";
     Intervention.description := Approval.description i;
     Intervention.params := Approval.params i;
     Intervention.success := true;
     Intervention.requires_approval := true;
     Intervention.approved_by := Some "human";
     Intervention.canRollback := true;
     Intervention.rollbackAction := None |}.

(** ** Approval queue *)

(** The updater of the [approval_required] case:
    [const exists = prev.some(p => p.intervention_id === data.data.intervention_id);
     if (exists) return prev;
     return [data.data, ...prev].slice(0, 50);] *)
Definition enqueue (data : ApprovalRequest) (prev : list ApprovalRequest)
  : list ApprovalRequest :=
  let exists_ :=
    existsb (fun p => String.eqb (Approval.intervention_id p)
                                 (Approval.intervention_id data)) prev in
  if exists_ then prev else JS.slice (data :: prev) 0 (Some 50).

(** [(prev) => prev.filter((p) => p.intervention_id !== approval.intervention_id)] *)
Definition resolve (approval : ApprovalRequest) (prev : list ApprovalRequest)
  : list ApprovalRequest :=
  filter (fun p => Approval.intervention_id p <> Approval.intervention_id approval)
         prev.

(** ** Event dispatcher ([ws.onmessage]) *)

(** A decoded [{type, data}] message. *)
Inductive Message :=
| Thought (data : AgentLog)
| MetricsMsg (data : SystemMetrics)
| BanksMsg (data : list BankHealth)
| InterventionMsg (data : Intervention)
| ApprovalRequired (data : ApprovalRequest)
| Unrecognized (type : string).

Definition action_entry (c : JS.Clock) (data : Intervention) : AgentLog :=
  {| Log.id := "action_" +:+ pretty (JS.now c);
     Log.timestamp := JS.toISOString c;
     Log.stage := Log.act;
     Log.type := Log.action;
     Log.content := "Executed: " +:+ Intervention.description data;
     Log.metadata := None |}.

Definition onmessage (c : JS.Clock) (msg : Message) (st : Dashboard) : Dashboard :=
  match msg with
  | Thought data =>
      setCurrentStage (Log.stage data) (setAgentLogs (addAgentLog data) st)
  | MetricsMsg data => setMetrics (fun _ => data) st
  | BanksMsg data => setBanks (fun _ => data) st
  | InterventionMsg data =>
      setAgentLogs (addAgentLog (action_entry c data))
        (setInterventions (record_intervention data) st)
  | ApprovalRequired data => setPendingApprovals (enqueue data) st
  | Unrecognized _ => st
  end.

(** [ws.onopen] *)
Definition onopen (c : JS.Clock) (st : Dashboard) : Dashboard :=
  setAgentLogs (addSystemLog c "Connected to backend WebSocket")
    (setIsConnected true st).

(** [ws.onclose] (the reconnect timer is not part of the state). *)
Definition onclose (st : Dashboard) : Dashboard := setIsConnected false st.

(** ** Approval handlers *)

(** How the awaited [fetch] settles: it resolves with a response, whatever
    its HTTP status, or rejects on a transport failure. *)
Inductive FetchResult := Resolved (ok : bool) | Rejected.

Definition approved_entry (c : JS.Clock) (approval : ApprovalRequest) : AgentLog :=
  {| Log.id := "approved_" +:+ pretty (JS.now c);
     Log.timestamp := JS.toISOString c;
     Log.stage := Log.act;
     Log.type := Log.action;
     Log.content :=
       "✅ Approved: " +:+ Approval.description (Approval.intervention approval);
     Log.metadata := None |}.

Definition handleApprove (r : FetchResult) (c : JS.Clock)
    (approval : ApprovalRequest) (st : Dashboard) : Dashboard :=
  let st1 :=
    match r with
    | Resolved _ =>
        setInterventions (fun prev => approved_record c approval :: prev)
          (setAgentLogs (addAgentLog (approved_entry c approval)) st)
    | Rejected =>
        setInterventions (fun prev => approved_record c approval :: prev) st
    end in
  setPendingApprovals (resolve approval) st1.

Definition handleReject (r : FetchResult) (approval : ApprovalRequest)
    (st : Dashboard) : Dashboard :=
  setPendingApprovals (resolve approval) st.

(** [handleRejectAll] *)
Definition handleRejectAll (st : Dashboard) : Dashboard :=
  setPendingApprovals (fun _ => []) st.

(** ** Fallback simulator ([useSimulation]) *)

Module useSimulation.

(** *** Agent thought simulation *)

Definition stages : list Log.Stage :=
  [Log.observe; Log.reason; Log.decide; Log.act; Log.learn].

(** The per-stage message table; it has no [system] key. *)
Definition thoughtMessages (stage : Log.Stage)
  : option (list (Log.Kind * string)) :=
  match stage with
  | Log.observe => Some
      [ (Log.thought, "📡 Scanning payment infrastructure...");
        (Log.prompt, "[Gemini] Analyze current metrics: success_rate=97.2%, latency=215ms");
        (Log.response, "[Gemini] Metrics within normal parameters. No immediate concerns.");
        (Log.thought, "📊 Collected 50 transactions, 0 anomalies detected") ]
  | Log.reason => Some
      [ (Log.thought, "🧠 Analyzing patterns and forming hypotheses...");
        (Log.prompt, "[Gemini] Given error_rate=2.8%, what is the likely cause?");
        (Log.response, "[Gemini] Normal variance. Recommend continued monitoring.");
        (Log.thought, "💡 Hypothesis: System operating normally, risk score: 0.15") ]
  | Log.decide => Some
      [ (Log.thought, "⚖️ Evaluating intervention options...");
        (Log.thought, "📋 Risk below threshold - no intervention needed");
        (Log.thought, "✅ Decision: Continue monitoring") ]
  | Log.act => Some
      [ (Log.action, "🚀 Executing: Maintain current configuration");
        (Log.thought, "✅ No changes required") ]
  | Log.learn => Some
      [ (Log.thought, "📚 Recording observations for future reference");
        (Log.thought, "💾 Pattern stored in memory") ]
  | Log.system => None
  end.

(** [messages[Math.floor(random * messages.length)]]; [None] is
    [undefined]. *)
Definition pick {A} (random : Q) (messages : list A) : option A :=
  let i := Qfloor (random * inject_Z (Z.of_nat (length messages))) in
  if i <? 0 then None else messages !! Z.to_nat i.

Definition demo_entry (c : JS.Clock) (stage : Log.Stage)
    (msg : Log.Kind * string) : AgentLog :=
  {| Log.id := "demo_" +:+ pretty (JS.now c);
     Log.timestamp := JS.toISOString c;
     Log.stage := stage;
     Log.type := msg.1;
     Log.content := msg.2;
     Log.metadata := None |}.

(** The effect body: an interval exists, with [stageIndex = 0], exactly
    when [!isConnected && simulatorRunning].  The effect is run again, and
    the interval replaced, whenever [isConnected], [simulatorRunning] or
    [agentRunning] changes. *)
Definition thoughtEffect (st : Dashboard) : option nat :=
  if negb (isConnected st) && simulatorRunning st then Some 0%nat else None.

(** One run of the interval callback on the closure variable [stageIndex]
    and the component state.  [random] is the value of [Math.random()].
    The [agentRunning] the closure captured is the one of the state, since
    the effect is run again when it changes.
    [None] stands for a [TypeError] on an [undefined] table entry. *)
Definition thoughtTick (random : Q) (c : JS.Clock) (stageIndex : nat)
    (st : Dashboard) : option (nat * Dashboard) :=
  if negb (agentRunning st) then Some (stageIndex, st)
  else
    stage ← stages !! stageIndex;
    messages ← thoughtMessages stage;
    msg ← pick random messages;
    Some (((stageIndex + 1) `mod` length stages)%nat,
          setCurrentStage stage
            (setAgentLogs (addAgentLog (demo_entry c stage msg)) st)).

(** *** Metrics simulation *)

(** The values [Math.random()] returns during one run of the drift
    callback: three for the metrics, two for each bank by position. *)
Record Draws := {
  for_success_rate : Q;
  for_avg_latency : Q;
  for_transaction_volume : Q;
  for_bank : nat -> Q * Q }.

Definition driftMetrics (d : Draws) (c : JS.Clock) (prev : SystemMetrics)
  : SystemMetrics :=
  {| Metrics.success_rate :=
       JS.Math_max 85 (JS.Math_min 99
         (Metrics.success_rate prev + (for_success_rate d - 0.5) * 2));
     Metrics.avg_latency :=
       JS.Math_max 100 (JS.Math_min 500
         (Metrics.avg_latency prev + (for_avg_latency d - 0.5) * 50));
     Metrics.transaction_volume :=
       JS.Math_floor
         (Metrics.transaction_volume prev
          + (for_transaction_volume d - 0.5) * 500);
     Metrics.error_rate :=
       JS.Math_max 1 (JS.Math_min 15 (100 - Metrics.success_rate prev));
     Metrics.timestamp := JS.toISOString c |}%Q.

Definition driftBank (r : Q * Q) (c : JS.Clock) (bank : BankHealth)
  : BankHealth :=
  {| Bank.name := Bank.name bank;
     Bank.display_name := Bank.display_name bank;
     Bank.success_rate :=
       JS.Math_max 80 (JS.Math_min 99.5
         (Bank.success_rate bank + (r.1 - 0.5) * 1));
     Bank.avg_latency :=
       JS.Math_max 100 (JS.Math_min 400
         (Bank.avg_latency bank + (r.2 - 0.5) * 20));
     Bank.status :=
       if JS.lt (Bank.success_rate bank) 85 then Bank.down
       else if JS.lt (Bank.success_rate bank) 92 then Bank.degraded
       else Bank.healthy;
     Bank.last_updated := JS.toISOString c;
     Bank.weight := JS.or_default (Bank.weight bank) 25 |}%Q.

(** The interval callback: [setMetrics(...)] then
    [setBanks((prev) => prev.map(...))]. *)
Definition driftTick (d : Draws) (c : JS.Clock) (st : Dashboard) : Dashboard :=
  setBanks (imap (fun i bank => driftBank (for_bank d i) c bank))
    (setMetrics (driftMetrics d c) st).

(** A period of the drift timer under the effect [if (!isConnected)]: the
    interval, and so the callback, exists only while the connection is not
    open. *)
Definition drift (d : Draws) (c : JS.Clock) (st : Dashboard) : Dashboard :=
  if isConnected st then st else driftTick d c st.

(** The state after a sequence of drift periods, first period first. *)
Definition drifts (ticks : list (Draws * JS.Clock)) (st : Dashboard)
  : Dashboard :=
  foldl (fun s t => drift t.1 t.2 s) st ticks.

End useSimulation.

(** ** Reference definitions the claims are compared with *)

(** Bank status as a function of the success rate: down below 85, degraded
    below 92, healthy otherwise. *)
Definition status_of (success_rate : Q) : Bank.Status :=
  if JS.lt success_rate 85 then Bank.down
  else if JS.lt success_rate 92 then Bank.degraded
  else Bank.healthy.

(** [lo <= x <= hi] *)
Definition within (lo hi x : Q) : Prop := (lo <= x /\ x <= hi)%Q.

Definition metrics_in_range (m : SystemMetrics) : Prop :=
  within 85 99 (Metrics.success_rate m) /\
  within 100 500 (Metrics.avg_latency m) /\
  within 1 15 (Metrics.error_rate m).

Definition bank_in_range (b : BankHealth) : Prop :=
  within 80 99.5 (Bank.success_rate b) /\
  within 100 400 (Bank.avg_latency b).

(** The ids held by the approval queue, head first. *)
Definition queued_ids (q : list ApprovalRequest) : list string :=
  Approval.intervention_id <$> q.

(** The queue after a sequence of [approval_required] messages, first arrival
    first. *)
Definition enqueues (msgs : list ApprovalRequest) (q : list ApprovalRequest)
  : list ApprovalRequest :=
  foldl (fun s m => enqueue m s) q msgs.

(** The ledger after a sequence of [intervention] messages, first arrival
    first. *)
Definition records (msgs : list Intervention) (ledger : list Intervention)
  : list Intervention :=
  foldl (fun s m => record_intervention m s) ledger msgs.

(** ** Concrete inputs used in the examples *)

Definition clock0 : JS.Clock :=
  {| JS.now := 1767225600000; JS.toISOString := "2026-01-01T00:00:00.000Z" |}.

(** An approval request for the proposal [retry_proposal], numbered [n]. *)
Definition retry_proposal : Approval.Proposal :=
  {| Approval.type := "adjust_retry_config";
     Approval.action := "adjust_retry_config";
     Approval.description := "Raise retry count for HDFC";
     Approval.params := None |}.

Definition request (n : nat) : ApprovalRequest :=
  {| Approval.intervention_id := "int_" +:+ pretty n;
     Approval.intervention := retry_proposal;
     Approval.risk_score := 0.5;
     Approval.hypothesis := "issuer degradation" |}.

(** An [intervention] payload numbered [n] with the given action. *)
Definition executed (n : nat) (action : string) : Intervention :=
  {| Intervention.id := "act_" +:+ pretty n;
     Intervention.timestamp := "2026-01-01T00:00:00.000Z";
     Intervention.type := action;
     Intervention.action := action;
     Intervention.description := "Executed " +:+ action;
     Intervention.params := None;
     Intervention.success := true;
     Intervention.requires_approval := false;
     Intervention.approved_by := None;
     Intervention.canRollback := false;
     Intervention.rollbackAction := None |}.

(** The component state after a sequence of [intervention] messages, all
    handled at clock [c]. *)
Definition after_interventions (c : JS.Clock) (msgs : list Intervention)
    (st : Dashboard) : Dashboard :=
  foldl (fun s m => onmessage c (InterventionMsg m) s) st msgs.

(** Draws that are all [1/2] (no drift) except the ones given. *)
Definition draws (for_success for_bank0 : Q) : useSimulation.Draws :=
  {| useSimulation.for_success_rate := for_success;
     useSimulation.for_avg_latency := 0.5;
     useSimulation.for_transaction_volume := 0.5;
     useSimulation.for_bank := fun i =>
       match i with O => (for_bank0, 0.5%Q) | _ => (0.5%Q, 0.5%Q) end |}.

(** A bank the server reports healthy at 92.25 %. *)
Definition hdfc_at_threshold : BankHealth :=
  {| Bank.name := "HDFC"; Bank.display_name := "HDFC Bank";
     Bank.status := Bank.healthy; Bank.success_rate := 92.25;
     Bank.avg_latency := 180; Bank.weight := 40;
     Bank.last_updated := "2026-01-01T00:00:00.000Z" |}.

(** The connection opens, the server sends that bank, the connection
    closes. *)
Definition disconnected_after_banks : Dashboard :=
  onclose (onmessage clock0 (BanksMsg [hdfc_at_threshold])
             (onopen clock0 (initial clock0))).

(** A bank record whose weight is 0, beside the one above. *)
Definition sbi_unweighted : BankHealth :=
  {| Bank.name := "SBI"; Bank.display_name := "SBI Bank";
     Bank.status := Bank.healthy; Bank.success_rate := 96.5;
     Bank.avg_latency := 220; Bank.weight := 0;
     Bank.last_updated := "2026-01-01T00:00:00.000Z" |}.

Definition disconnected_after_two_banks : Dashboard :=
  onclose (onmessage clock0 (BanksMsg [hdfc_at_threshold; sbi_unweighted])
             (onopen clock0 (initial clock0))).

(** The simulator is switched on and agent execution is switched off. *)
Definition paused : Dashboard :=
  setAgentRunning false (setSimulatorRunning true (initial clock0)).

(** The simulator is switched on, agent execution is on (its initial
    value). *)
Definition narrating : Dashboard := setSimulatorRunning true (initial clock0).

(** ** Scenario injection ([triggerScenario], [triggerChaos]) *)

Module Scenario.
Record t := {
  name : string;
  targetBank : string;
  targetMethod : string;
  failureIncrease : Q;
  latencyIncrease : Q;
  duration : Q }.
End Scenario.
Abbreviation CustomScenario := Scenario.t.

(** How the awaited [fetch] of [triggerScenario] settles: a response with its
    [ok] flag and [statusText], or an exception, given by its rendering
    [`${error}`]. *)
Inductive ScenarioResponse :=
| Responded (ok : bool) (statusText : string)
| Threw (error : string).

(** [triggerScenario] up to its [await]: the first [addSystemLog]. *)
Definition triggerScenario_start (c : JS.Clock) (scenario : CustomScenario)
    (st : Dashboard) : Dashboard :=
  setAgentLogs (addSystemLog c ("🔥 Injecting scenario: " +:+ Scenario.name scenario)) st.

(** [triggerScenario] after its [await].  [toString] is the conversion of a
    number inside a template literal. *)
Definition triggerScenario_settle (toString : Q -> string) (c : JS.Clock)
    (resp : ScenarioResponse) (scenario : CustomScenario) (st : Dashboard)
  : Dashboard :=
  match resp with
  | Responded true _ =>
      setAgentLogs (addSystemLog c
        ("✅ Scenario applied: " +:+ Scenario.targetBank scenario
         +:+ " will experience +" +:+ toString (Scenario.failureIncrease scenario)
         +:+ "% failures for " +:+ toString (Scenario.duration scenario) +:+ "s")) st
  | Responded false statusText =>
      setAgentLogs (addSystemLog c
        ("❌ Failed to apply scenario: " +:+ statusText)) st
  | Threw error =>
      setAgentLogs (addSystemLog c
        ("❌ Error triggering scenario: " +:+ error)) st
  end.

(** The scenario [triggerChaos] hands to [triggerScenario], from the four
    values of [Math.random()].  [None]: [banks[i]] is [undefined]. *)
Definition chaos_banks : list string := ["HDFC"; "ICICI"; "SBI"; "AXIS"].

Definition chaosScenario (r_bank r_failure r_latency r_duration : Q)
  : option CustomScenario :=
  randomBank ← useSimulation.pick r_bank chaos_banks;
  Some {| Scenario.name := "🎲 Chaos Scenario";
          Scenario.targetBank := randomBank;
          Scenario.targetMethod := "all";
          Scenario.failureIncrease := (JS.Math_floor (r_failure * 60) + 20)%Q;
          Scenario.latencyIncrease := (JS.Math_floor (r_latency * 1500) + 500)%Q;
          Scenario.duration := (JS.Math_floor (r_duration * 120) + 30)%Q |}.

(** [toggleSimulator] *)
Definition toggleSimulator (st : Dashboard) : Dashboard :=
  setSimulatorRunning (negb (simulatorRunning st)) st.

(** [onToggleRunning]: [() => setAgentRunning(!agentRunning)] *)
Definition onToggleRunning (st : Dashboard) : Dashboard :=
  setAgentRunning (negb (agentRunning st)) st.

(** [onForceObserve]: [() => addSystemLog("Observation forced.")] *)
Definition onForceObserve (c : JS.Clock) (st : Dashboard) : Dashboard :=
  setAgentLogs (addSystemLog c "Observation forced.") st.

(** ** The handlers of the component *)

(** One uninterrupted run of a handler of [WarRoomDashboard]: a socket
    callback, a callback passed to a view, or a timer callback.  An
    asynchronous handler is one event for each part that writes state:
    [handleApprove] and [handleReject] write after their [await] only,
    [triggerScenario] before and after it; [handleApproveAll] is one
    [Approve] per request and [triggerChaos] is a [triggerScenario].
    [Setting] stands for the handlers that write only the state variables
    [Dashboard] leaves out ([activeView], [manualMode],
    [autoApproveThreshold], [riskTolerance], [loopInterval], [chaosMode]) and
    for [handleRollback], which writes nothing.  A narration tick carries the
    [stageIndex] of its closure; a tick that raises leaves the state as it
    was. *)
Inductive Event :=
| Open (c : JS.Clock)
| Close
| Receive (c : JS.Clock) (msg : Message)
| Approve (r : FetchResult) (c : JS.Clock) (a : ApprovalRequest)
| Reject (r : FetchResult) (a : ApprovalRequest)
| RejectAll
| ScenarioStart (c : JS.Clock) (scenario : CustomScenario)
| ScenarioSettle (toString : Q -> string) (c : JS.Clock)
    (resp : ScenarioResponse) (scenario : CustomScenario)
| ToggleSimulator
| ToggleRunning
| ForceObserve (c : JS.Clock)
| Setting
| Narrate (random : Q) (c : JS.Clock) (stageIndex : nat)
| Drift (d : useSimulation.Draws) (c : JS.Clock).

Definition step (e : Event) (st : Dashboard) : Dashboard :=
  match e with
  | Open c => onopen c st
  | Close => onclose st
  | Receive c msg => onmessage c msg st
  | Approve r c a => handleApprove r c a st
  | Reject r a => handleReject r a st
  | RejectAll => handleRejectAll st
  | ScenarioStart c scenario => triggerScenario_start c scenario st
  | ScenarioSettle toString c resp scenario =>
      triggerScenario_settle toString c resp scenario st
  | ToggleSimulator => toggleSimulator st
  | ToggleRunning => onToggleRunning st
  | ForceObserve c => onForceObserve c st
  | Setting => st
  | Narrate random c i =>
      match useSimulation.thoughtTick random c i st with
      | Some (_, st') => st'
      | None => st
      end
  | Drift d c => useSimulation.drift d c st
  end.

(** The state after a sequence of handler runs, first run first. *)
Definition run (events : list Event) (st : Dashboard) : Dashboard :=
  foldl (fun s e => step e s) st events.

(** [handleApproveAll] is [pendingApprovals.forEach(handleApprove)]: one
    [handleApprove] per queued request, each writing state when its own
    [fetch] has settled, with whatever other handlers run in between.  The
    classifications below say what an event does to the queue and the
    ledger. *)

(** [e] is an [approval_required] message. *)
Definition is_arrival (e : Event) : bool :=
  match e with
  | Receive _ (ApprovalRequired _) => true
  | _ => false
  end.

(** [e] is an [approval_required] message for the id [i]. *)
Definition requeues (i : string) (e : Event) : bool :=
  match e with
  | Receive _ (ApprovalRequired d) => String.eqb (Approval.intervention_id d) i
  | _ => false
  end.

(** [e] is the approval or the rejection of the id [i], or reject-all. *)
Definition resolves (i : string) (e : Event) : bool :=
  match e with
  | Approve _ _ a | Reject _ a => String.eqb (Approval.intervention_id a) i
  | RejectAll => true
  | _ => false
  end.

(** [e] is an [intervention] message. *)
Definition is_intervention (e : Event) : bool :=
  match e with
  | Receive _ (InterventionMsg _) => true
  | _ => false
  end.

(** The records of the approvals that settle in [events], first settled
    first. *)
Definition approvals (events : list Event) : list Intervention :=
  flat_map (fun e => match e with
                     | Approve _ c a => [approved_record c a]
                     | _ => []
                     end) events.

(** Consecutive runs of the narration callback of one interval, each with its
    draw and clock, threading [stageIndex]. *)
Fixpoint thoughtTicks (ticks : list (Q * JS.Clock)) (stageIndex : nat)
    (st : Dashboard) : option (nat * Dashboard) :=
  match ticks with
  | [] => Some (stageIndex, st)
  | t :: ticks =>
      match useSimulation.thoughtTick t.1 t.2 stageIndex st with
      | Some (i, st') => thoughtTicks ticks i st'
      | None => None
      end
  end.

(** ** The effects of [useSimulation] and their intervals *)

(** The component state together with the two intervals of [useSimulation]:
    the narration interval, with the [stageIndex] of its closure, and the
    drift interval. *)
Record Hooks := {
  dash : Dashboard;
  thoughtInterval : option nat;
  driftInterval : bool }.

(** The body of the drift effect: [if (!isConnected) { setInterval(...) }]. *)
Definition driftEffect (st : Dashboard) : bool := negb (isConnected st).

(** Both effects run at mount. *)
Definition mount (st : Dashboard) : Hooks :=
  {| dash := st;
     thoughtInterval := useSimulation.thoughtEffect st;
     driftInterval := driftEffect st |}.

(** The dependencies that can change between renders: [addAgentLog] and the
    [useState] setters are the same at every render. *)
Definition thought_deps (st : Dashboard) : bool * bool * bool :=
  (isConnected st, simulatorRunning st, agentRunning st).

Definition drift_deps (st : Dashboard) : bool := isConnected st.

(** The render that follows a handler which took the state from [dash h] to
    [st]: an effect one of whose dependencies changed runs its cleanup
    ([clearInterval]) and then its body; an effect whose dependencies did not
    change keeps its interval.  Effects are taken to run before the next
    handler or timer callback. *)
Definition rerender (h : Hooks) (st : Dashboard) : Hooks :=
  {| dash := st;
     thoughtInterval :=
       if decide (thought_deps st = thought_deps (dash h)) then thoughtInterval h
       else useSimulation.thoughtEffect st;
     driftInterval :=
       if decide (drift_deps st = drift_deps (dash h)) then driftInterval h
       else driftEffect st |}.

(** One event on the component with its intervals.  A timer callback runs
    only if its interval exists; the narration callback works on the
    [stageIndex] of the interval (the index an event [Narrate] carries is not
    used) and keeps the interval, since it changes no dependency.  Any other
    event is the handler run followed by the render. *)
Definition hook_step (e : Event) (h : Hooks) : Hooks :=
  match e with
  | Narrate random c _ =>
      match thoughtInterval h with
      | Some i =>
          match useSimulation.thoughtTick random c i (dash h) with
          | Some (i', st) =>
              {| dash := st; thoughtInterval := Some i';
                 driftInterval := driftInterval h |}
          | None => h
          end
      | None => h
      end
  | Drift d c =>
      if driftInterval h
      then {| dash := useSimulation.driftTick d c (dash h);
              thoughtInterval := thoughtInterval h;
              driftInterval := driftInterval h |}
      else h
  | _ => rerender h (step e (dash h))
  end.

Definition hook_run (events : list Event) (h : Hooks) : Hooks :=
  foldl (fun s e => hook_step e s) h events.

(** The intervals that exist are the ones the flags call for. *)
Definition intervals_follow_flags (h : Hooks) : Prop :=
  (thoughtInterval h <> None <->
     isConnected (dash h) = false /\ simulatorRunning (dash h) = true) /\
  driftInterval h = negb (isConnected (dash h)).

(** [e] is a timer callback. *)
Definition is_timer (e : Event) : bool :=
  match e with
  | Narrate _ _ _ | Drift _ _ => true
  | _ => false
  end.

(** ** Log filter of [AgentTerminal] *)

#[global] Instance Stage_eq_dec : EqDecision Log.Stage.
Proof. solve_decision. Defined.

Module AgentTerminal.

(** The string a stage is in the source. *)
Definition stage_name (s : Log.Stage) : string :=
  match s with
  | Log.observe => "observe" | Log.reason => "reason" | Log.decide => "decide"
  | Log.act => "act" | Log.learn => "learn" | Log.system => "system"
  end.

Definition is_kind (k : Log.Kind) (log : AgentLog) : bool :=
  match k, Log.type log with
  | Log.thought, Log.thought | Log.prompt, Log.prompt
  | Log.response, Log.response | Log.action, Log.action
  | Log.error, Log.error => true
  | _, _ => false
  end.

(** The predicate of [logs.filter((log) => { ... })]. *)
Definition keeps (filter : string) (log : AgentLog) : bool :=
  if String.eqb filter "all" then true
  else if String.eqb filter "thoughts" then is_kind Log.thought log
  else if String.eqb filter "raw" then
    is_kind Log.prompt log || is_kind Log.response log
  else if String.eqb filter "actions" then is_kind Log.action log
  else String.eqb (stage_name (Log.stage log)) filter.

Definition filteredLogs (filter : string) (logs : list AgentLog) : list AgentLog :=
  List.filter (keeps filter) logs.

(** The filter tabs the terminal offers. *)
Definition tabs : list string :=
  ["all"; "observe"; "reason"; "decide"; "act"; "learn"; "actions"].

(** The footer count [logs.filter((l) => l.type === "action").length]. *)
Definition action_count (logs : list AgentLog) : nat :=
  length (List.filter (is_kind Log.action) logs).

End AgentTerminal.

(** ** [InterventionTimeline] and [MonitoringView] helpers *)

(** [formatTimeDiff]: [now] is [Date.now()], [time] is
    [new Date(timestamp).getTime()], both integers of milliseconds;
    [Math.floor(a / b)] on integers is the floor division. *)
Definition formatTimeDiff (now time : Z) : string :=
  let diff := now - time in
  let seconds := diff `div` 1000 in
  let minutes := seconds `div` 60 in
  let hours := minutes `div` 60 in
  if 0 <? hours then pretty hours +:+ "h ago"
  else if 0 <? minutes then pretty minutes +:+ "m ago"
  else pretty seconds +:+ "s ago".

(** [getSuccessRateColor] *)
Definition getSuccessRateColor (rate : Q) : string :=
  if Qle_bool 95 rate then "text-emerald-500"
  else if Qle_bool 90 rate then "text-amber-500"
  else "text-red-500".

(** A value [Math.random()] can return. *)
Definition unit_draw (r : Q) : Prop := (0 <= r /\ r < 1)%Q.

(** The rejections of several requests, each continuing after its own
    [fetch] has settled, in the order in which they run. *)
Definition settle_rejections (settled : list (FetchResult * ApprovalRequest))
    (st : Dashboard) : Dashboard :=
  foldl (fun s t => handleReject t.1 t.2 s) st settled.

(** ** Facts about [slice] *)

Section Slice.
Context {A : Type}.
Implicit Types l : list A.

Lemma slice_tail l (n : nat) :
  (0 < n)%nat -> JS.slice l (- Z.of_nat n) None = most_recent n l.
Proof.
  intros Hn. unfold JS.slice, JS.relative_index, most_recent.
  destruct (Z.ltb_spec (- Z.of_nat n) 0) as [_|]; [|lia].
  replace (Z.to_nat (Z.max (Z.of_nat (length l) + - Z.of_nat n) 0))
    with (length l - n)%nat by lia.
  apply take_ge. rewrite length_drop. lia.
Qed.

Lemma slice_head l (n : nat) :
  JS.slice l 0 (Some (Z.of_nat n)) = take n l.
Proof.
  unfold JS.slice, JS.relative_index.
  destruct (Z.ltb_spec (Z.of_nat n) 0); [lia|].
  change (0 <? 0) with false. cbv iota.
  rewrite (Z.min_l 0) by lia. rewrite Z.sub_0_r.
  change (Z.to_nat 0) with 0%nat. rewrite drop_0.
  destruct (Nat.le_gt_cases n (length l)).
  - f_equal. lia.
  - rewrite !take_ge by lia. done.
Qed.

Lemma most_recent_length n l : length (most_recent n l) = (length l `min` n)%nat.
Proof. unfold most_recent. rewrite length_drop. lia. Qed.

Lemma most_recent_snoc n l x :
  most_recent (S n) (l ++ [x]) = most_recent n l ++ [x].
Proof.
  unfold most_recent. rewrite length_app. simpl.
  replace (length l + 1 - S n)%nat with (length l - n)%nat by lia.
  rewrite drop_app_le by lia. done.
Qed.

Lemma most_recent_twice n m l :
  (n <= m)%nat -> most_recent n (most_recent m l) = most_recent n l.
Proof.
  intros Hnm. unfold most_recent. rewrite length_drop, drop_drop.
  f_equal. lia.
Qed.
End Slice.

Lemma append_spec a prev : append a prev = most_recent 100 prev ++ [appended a].
Proof.
  pose proof (slice_tail prev 100 ltac:(lia)) as Hs.
  change (- Z.of_nat 100) with (-100) in Hs.
  destruct a; simpl; unfold addAgentLog, addSystemLog; by rewrite Hs.
Qed.

Lemma appends_snoc ops a store :
  appends (ops ++ [a]) store = append a (appends ops store).
Proof. unfold appends. by rewrite foldl_app. Qed.

Lemma appends_spec ops store :
  (length store <= 101)%nat ->
  appends ops store = most_recent 101 (store ++ map appended ops).
Proof.
  intros Hs. induction ops as [|a ops IH] using rev_ind.
  - simpl. rewrite app_nil_r. unfold most_recent.
    replace (length store - 101)%nat with 0%nat by lia. done.
  - rewrite appends_snoc, append_spec, IH, map_app, app_assoc. simpl.
    rewrite most_recent_snoc, most_recent_twice by lia. done.
Qed.

(** Every writer of the log store goes through [append]: the dispatcher,
    the connection handler, the approval handler. *)
Lemma log_writers c st :
  (forall data, agentLogs (onmessage c (Thought data) st)
                = append (AgentAppend data) (agentLogs st)) /\
  (forall data, agentLogs (onmessage c (InterventionMsg data) st)
                = append (AgentAppend (action_entry c data)) (agentLogs st)) /\
  agentLogs (onopen c st)
  = append (SystemAppend c "Connected to backend WebSocket") (agentLogs st) /\
  (forall ok a, agentLogs (handleApprove (Resolved ok) c a st)
                = append (AgentAppend (approved_entry c a)) (agentLogs st)).
Proof. done. Qed.

(** C1. Starting from the empty store, after any sequence of appends through
    [addAgentLog] and [addSystemLog] the store holds at most 101 entries, and
    they are exactly the 101 most recently appended entries (all of them when
    fewer were appended), in arrival order. *)
Theorem log_store_bounded_window (ops : list LogAppend) :
  (length (appends ops []) <= 101)%nat /\
  appends ops [] = most_recent 101 (map appended ops).
Proof.
  pose proof (appends_spec ops []) as H. simpl in H.
  rewrite H by lia. split; [|done].
  rewrite most_recent_length. lia.
Qed.

(** ** Approval queue: deduplication, capacity, resolution *)

Section Queue.
Implicit Types (q : list ApprovalRequest) (d a : ApprovalRequest).

Lemma some_same_id d q :
  existsb (fun p => String.eqb (Approval.intervention_id p)
                               (Approval.intervention_id d)) q = true
  <-> Approval.intervention_id d ∈ queued_ids q.
Proof.
  unfold queued_ids. rewrite existsb_exists, list_elem_of_fmap. split.
  - intros (p & Hin & Heq). apply String.eqb_eq in Heq.
    exists p. split; [done|]. by apply list_elem_of_In.
  - intros (p & Heq & Hin). exists p. split.
    + by apply list_elem_of_In.
    + apply String.eqb_eq. done.
Qed.

Lemma enqueue_queued d q :
  Approval.intervention_id d ∈ queued_ids q -> enqueue d q = q.
Proof.
  intros Hin. apply some_same_id in Hin. unfold enqueue. by rewrite Hin.
Qed.

Lemma enqueue_fresh d q :
  Approval.intervention_id d ∉ queued_ids q -> enqueue d q = take 50 (d :: q).
Proof.
  intros Hnin. unfold enqueue.
  destruct (existsb _ q) eqn:He.
  - apply some_same_id in He. done.
  - apply (slice_head (d :: q) 50).
Qed.

Lemma enqueue_length d q : (length q <= 50)%nat -> (length (enqueue d q) <= 50)%nat.
Proof.
  intros Hq. destruct (decide (Approval.intervention_id d ∈ queued_ids q)).
  - by rewrite enqueue_queued.
  - rewrite enqueue_fresh, length_take by done. lia.
Qed.

Lemma enqueue_NoDup d q : NoDup (queued_ids q) -> NoDup (queued_ids (enqueue d q)).
Proof.
  intros Hq. destruct (decide (Approval.intervention_id d ∈ queued_ids q)).
  - by rewrite enqueue_queued.
  - rewrite enqueue_fresh by done. unfold queued_ids. rewrite fmap_take.
    eapply sublist_NoDup; [|apply sublist_take].
    rewrite fmap_cons. by apply NoDup_cons.
Qed.

Lemma enqueues_snoc msgs d q : enqueues (msgs ++ [d]) q = enqueue d (enqueues msgs q).
Proof. unfold enqueues. by rewrite foldl_snoc. Qed.

Lemma enqueues_invariant msgs :
  NoDup (queued_ids (enqueues msgs [])) /\ (length (enqueues msgs []) <= 50)%nat.
Proof.
  induction msgs as [|d msgs [IH1 IH2]] using rev_ind.
  - split; [constructor | simpl; lia].
  - rewrite enqueues_snoc. split; [by apply enqueue_NoDup | by apply enqueue_length].
Qed.

Lemma enqueue_twice_room d d' q :
  Approval.intervention_id d' = Approval.intervention_id d ->
  Approval.intervention_id d ∉ queued_ids q ->
  (length q < 50)%nat ->
  length (enqueue d' (enqueue d q)) = S (length q).
Proof.
  intros Hsame Hfresh Hroom.
  rewrite (enqueue_fresh d q) by done.
  rewrite take_ge by (simpl; lia).
  rewrite enqueue_queued; [done|].
  rewrite Hsame. unfold queued_ids. rewrite fmap_cons. apply list_elem_of_here.
Qed.

Lemma resolve_split a x l1 l2 :
  Approval.intervention_id x = Approval.intervention_id a ->
  Approval.intervention_id a ∉ queued_ids l1 ->
  Approval.intervention_id a ∉ queued_ids l2 ->
  resolve a (l1 ++ x :: l2) = l1 ++ l2.
Proof.
  intros Hx H1 H2. unfold resolve.
  assert (Hkeep : forall l, Approval.intervention_id a ∉ queued_ids l ->
    filter (fun p => Approval.intervention_id p <> Approval.intervention_id a) l = l).
  { induction l as [|p l IH]; [done|]. unfold queued_ids. rewrite fmap_cons.
    intros [Hp Hl]%not_elem_of_cons.
    rewrite filter_cons_True by congruence. f_equal. by apply IH. }
  rewrite filter_app, filter_cons_False by (intros Hne; by apply Hne).
  by rewrite !Hkeep.
Qed.
End Queue.

(** C2 (as stated): a queue that already holds 50 entries does not grow when
    two messages sharing a new intervention_id arrive; the newcomer takes the
    place of the oldest entry. *)
Lemma approval_queue_full_no_growth :
  (Approval.intervention_id (request 50)
     ∉ queued_ids (enqueues (request <$> seq 0 50) [])) /\
  length (enqueue (request 50) (enqueue (request 50) (enqueues (request <$> seq 0 50) [])))
  <> S (length (enqueues (request <$> seq 0 50) [])).
Proof.
  split.
  - apply (bool_decide_unpack _). vm_compute. done.
  - vm_compute. lia.
Qed.

(** C2 (amended). After any sequence of approval_required messages the queue
    holds at most one entry per intervention_id and at most 50 entries; a
    message whose intervention_id is already queued leaves the queue
    unchanged; of two messages sharing an intervention_id that is not queued
    yet, the first is put at the head and the second is dropped: when the
    queue holds fewer than 50 entries nothing else changes and the length
    grows by exactly 1; when it holds 50, the new request replaces the oldest
    one (the last entry) and the length stays 50. *)
Theorem approval_queue_dedup (msgs : list ApprovalRequest) :
  NoDup (queued_ids (enqueues msgs [])) /\
  (length (enqueues msgs []) <= 50)%nat /\
  (forall d, Approval.intervention_id d ∈ queued_ids (enqueues msgs []) ->
     enqueue d (enqueues msgs []) = enqueues msgs []) /\
  (forall d d',
     Approval.intervention_id d' = Approval.intervention_id d ->
     Approval.intervention_id d ∉ queued_ids (enqueues msgs []) ->
     (length (enqueues msgs []) < 50)%nat ->
     enqueue d' (enqueue d (enqueues msgs [])) = d :: enqueues msgs [] /\
     length (enqueue d' (enqueue d (enqueues msgs [])))
     = S (length (enqueues msgs []))) /\
  (forall d d',
     Approval.intervention_id d' = Approval.intervention_id d ->
     Approval.intervention_id d ∉ queued_ids (enqueues msgs []) ->
     length (enqueues msgs []) = 50%nat ->
     (exists kept oldest,
        enqueues msgs [] = kept ++ [oldest] /\
        enqueue d' (enqueue d (enqueues msgs [])) = d :: kept) /\
     length (enqueue d' (enqueue d (enqueues msgs []))) = 50%nat).
Proof.
  destruct (enqueues_invariant msgs) as [Hnd Hlen].
  assert (Htwice : forall d d',
    Approval.intervention_id d' = Approval.intervention_id d ->
    Approval.intervention_id d ∉ queued_ids (enqueues msgs []) ->
    enqueue d' (enqueue d (enqueues msgs [])) = d :: take 49 (enqueues msgs [])).
  { intros d d' Hsame Hfresh. rewrite (enqueue_fresh d) by done.
    change (take 50 (d :: enqueues msgs [])) with (d :: take 49 (enqueues msgs [])).
    apply enqueue_queued. rewrite Hsame. unfold queued_ids.
    rewrite fmap_cons. apply list_elem_of_here. }
  repeat split; [done | done | | | | |].
  - intros d Hd. by apply enqueue_queued.
  - rewrite Htwice by done. f_equal. apply take_ge. lia.
  - by apply enqueue_twice_room.
  - exists (take 49 (enqueues msgs [])), (default d (last (enqueues msgs []))).
    split; [|by apply Htwice].
    destruct (enqueues msgs []) as [|x q] eqn:E using rev_ind; [done|].
    rewrite length_app in H1. simpl in H1.
    rewrite last_snoc, take_app_length' by lia. done.
  - rewrite Htwice by done.
    rewrite length_cons, length_take. lia.
Qed.

Lemma approval_queue_dedup_witness :
  length (enqueue (request 1) (enqueue (request 1) (enqueues [request 0] []))) = 2%nat.
Proof.
  apply (proj1 (proj2 (proj2 (proj2 (approval_queue_dedup [request 0]))))).
  - reflexivity.
  - apply (bool_decide_unpack _). vm_compute. done.
  - simpl. lia.
Defined.

(** C8. Approving or rejecting a pending approval keeps, in their order,
    exactly the queued entries whose intervention_id differs from the resolved
    one, whatever the outcome of the HTTP call; when the queue holds one
    entry per id, the queue loses the entry with that id and nothing else. *)
Theorem resolve_removes_exactly (r : FetchResult) (c : JS.Clock)
    (a : ApprovalRequest) (st : Dashboard) :
  pendingApprovals (handleApprove r c a st) = pendingApprovals (handleReject r a st) /\
  (forall p, p ∈ pendingApprovals (handleApprove r c a st) <->
     p ∈ pendingApprovals st /\
     Approval.intervention_id p <> Approval.intervention_id a) /\
  pendingApprovals (handleApprove r c a st) `sublist_of` pendingApprovals st /\
  (forall l1 x l2,
     pendingApprovals st = l1 ++ x :: l2 ->
     Approval.intervention_id x = Approval.intervention_id a ->
     NoDup (queued_ids (pendingApprovals st)) ->
     pendingApprovals (handleApprove r c a st) = l1 ++ l2).
Proof.
  assert (Hq : pendingApprovals (handleApprove r c a st)
               = resolve a (pendingApprovals st)) by (by destruct r).
  rewrite Hq. split; [done|]. split; [|split].
  - intros p. unfold resolve. rewrite list_elem_of_filter. tauto.
  - apply sublist_filter.
  - intros l1 x l2 Hst Hx Hnd. rewrite Hst in Hnd |- *.
    unfold queued_ids in Hnd. rewrite fmap_app, fmap_cons in Hnd.
    apply NoDup_app in Hnd as (_ & Hdisj & [Hx2 _]%NoDup_cons).
    apply resolve_split; [done | | by rewrite <- Hx].
    intros Hin. apply (Hdisj _ Hin). rewrite <- Hx. apply list_elem_of_here.
Qed.

Lemma resolve_removes_exactly_witness :
  pendingApprovals
    (handleApprove Rejected clock0 (request 1)
       (setPendingApprovals (fun _ => [request 2; request 1; request 0])
          (initial clock0)))
  = [request 2] ++ [request 0].
Proof.
  apply (proj2 (proj2 (proj2 (resolve_removes_exactly Rejected clock0 (request 1)
    (setPendingApprovals (fun _ => [request 2; request 1; request 0])
       (initial clock0))))) [request 2] (request 1) [request 0]).
  - reflexivity.
  - reflexivity.
  - apply (bool_decide_unpack _). vm_compute. done.
Defined.

(** ** Intervention ledger: capacity and derived rollback metadata *)

Section Ledger.
Implicit Types (l : list Intervention) (m : Intervention).

Lemma record_intervention_spec m l :
  record_intervention m l = recorded m :: take 49 l.
Proof. unfold record_intervention. f_equal. apply (slice_head l 49). Qed.

Lemma records_snoc msgs m l :
  records (msgs ++ [m]) l = record_intervention m (records msgs l).
Proof. unfold records. by rewrite foldl_snoc. Qed.

(** The ledger fed by messages only is the 50 latest arrivals, newest
    first. *)
Lemma records_spec msgs :
  records msgs [] = take 50 (reverse (recorded <$> msgs)).
Proof.
  induction msgs as [|m msgs IH] using rev_ind; [done|].
  rewrite records_snoc, record_intervention_spec, IH.
  rewrite fmap_app, reverse_app. simpl.
  rewrite take_take. done.
Qed.

Lemma records_length msgs : (length (records msgs []) <= 50)%nat.
Proof. rewrite records_spec, length_take. lia. Qed.

(** 60 messages: the ledger holds the arrivals 11 to 60, the 10 oldest are
    gone. *)
Lemma records_sixty msgs :
  length msgs = 60%nat ->
  length (records msgs []) = 50%nat /\
  records msgs [] = reverse (recorded <$> drop 10 msgs).
Proof.
  intros Hlen. rewrite records_spec. split.
  - rewrite length_take, length_reverse, length_fmap. lia.
  - rewrite <- (take_drop 10 msgs) at 1.
    rewrite fmap_app, reverse_app, take_app_length'; [done|].
    rewrite length_reverse, length_fmap, length_drop. lia.
Qed.

Lemma after_interventions_ledger c msgs st :
  interventions (after_interventions c msgs st) = records msgs (interventions st).
Proof.
  revert st. induction msgs as [|m msgs IH]; intros st; [done|].
  simpl. rewrite IH. done.
Qed.

Lemma handleApprove_ledger r c a st :
  interventions (handleApprove r c a st) = approved_record c a :: interventions st.
Proof. by destruct r. Qed.
End Ledger.

(** C6. The [intervention] path truncates the ledger ([records_length],
    [records_sixty]), the approval path does not: after 50 intervention
    messages, one approval leaves 51 records in the ledger. *)
Theorem approval_grows_ledger_past_50 :
  length (interventions
    (handleApprove (Resolved true) clock0 (request 0)
       (after_interventions clock0
          ((fun n => executed n "switch_gateway") <$> seq 0 50)
          (initial clock0)))) = 51%nat.
Proof.
  rewrite handleApprove_ledger, after_interventions_ledger. simpl interventions.
  rewrite records_spec, length_cons, length_take, length_reverse, !length_fmap.
  rewrite length_seq. done.
Qed.

(** C7. The record an [intervention] message puts at the head of the ledger
    has canRollback true exactly when its action is switch_gateway,
    adjust_retry_config or suppress_payment_method, and for each of these its
    rollbackAction is the description the table gives; for switch_gateway,
    "Restore original routing weights". *)
Theorem intervention_rollback_metadata (c : JS.Clock) (data : Intervention)
    (st : Dashboard) :
  head (interventions (onmessage c (InterventionMsg data) st)) = Some (recorded data) /\
  Intervention.action (recorded data) = Intervention.action data /\
  (Intervention.canRollback (recorded data) = true <->
     Intervention.action data = "switch_gateway" \/
     Intervention.action data = "adjust_retry_config" \/
     Intervention.action data = "suppress_payment_method") /\
  (Intervention.action data = "switch_gateway" ->
     Intervention.canRollback (recorded data) = true /\
     Intervention.rollbackAction (recorded data)
     = Some "Restore original routing weights") /\
  (Intervention.action data = "adjust_retry_config" ->
     Intervention.rollbackAction (recorded data)
     = Some "Revert to previous retry settings") /\
  (Intervention.action data = "suppress_payment_method" ->
     Intervention.rollbackAction (recorded data)
     = Some "Re-enable payment method").
Proof.
  split; [done|]. split; [done|]. split; [|split; [|split]].
  - simpl. unfold includes, reversible_actions. simpl.
    rewrite orb_false_r, !orb_true_iff, !String.eqb_eq. tauto.
  - simpl. intros ->. done.
  - simpl. intros ->. done.
  - simpl. intros ->. done.
Qed.

Lemma intervention_rollback_metadata_witness :
  Intervention.canRollback (recorded (executed 0 "switch_gateway")) = true /\
  Intervention.rollbackAction (recorded (executed 0 "switch_gateway"))
  = Some "Restore original routing weights".
Proof.
  apply (proj1 (proj2 (proj2 (proj2
    (intervention_rollback_metadata clock0 (executed 0 "switch_gateway")
       (initial clock0)))))).
  reflexivity.
Defined.

(** C10. Whatever the approved request proposes and however the HTTP call
    ends, [handleApprove] prepends to the ledger a record whose type and
    action are "switch_gateway", with canRollback, success and
    requires_approval true and approved_by "human". *)
Theorem approved_record_is_switch_gateway (r : FetchResult) (c : JS.Clock)
    (a : ApprovalRequest) (st : Dashboard) :
  exists rec,
    interventions (handleApprove r c a st) = rec :: interventions st /\
    Intervention.id rec = Approval.intervention_id a /\
    Intervention.type rec = "switch_gateway" /\
    Intervention.action rec = "switch_gateway" /\
    Intervention.canRollback rec = true /\
    Intervention.success rec = true /\
    Intervention.requires_approval rec = true /\
    Intervention.approved_by rec = Some "human".
Proof.
  exists (approved_record c a). split; [apply handleApprove_ledger|]. done.
Qed.

(** The proposal of [request 0] asks for adjust_retry_config; the record of
    its approval says switch_gateway. *)
Example approved_retry_recorded_as_switch :
  Approval.action (Approval.intervention (request 0)) = "adjust_retry_config" /\
  Intervention.action <$> head (interventions
    (handleApprove Rejected clock0 (request 0) (initial clock0)))
  = Some "switch_gateway".
Proof. done. Qed.

(** ** Fallback simulator: drift *)

Section Clamp.
Local Open Scope Q_scope.

Lemma Math_max_lb a b : a <= JS.Math_max a b.
Proof.
  unfold JS.Math_max. destruct (Qle_bool a b) eqn:E.
  - by apply Qle_bool_iff.
  - apply Qle_refl.
Qed.

Lemma Math_max_lub a b c : a <= c -> b <= c -> JS.Math_max a b <= c.
Proof. unfold JS.Math_max. by destruct (Qle_bool a b). Qed.

Lemma Math_min_le_l a b : JS.Math_min a b <= a.
Proof.
  unfold JS.Math_min. destruct (Qle_bool a b) eqn:E.
  - apply Qle_refl.
  - apply Qlt_le_weak, Qnot_le_lt. intros H. apply Qle_bool_iff in H. congruence.
Qed.

(** [Math.max(lo, Math.min(hi, x))] lies in [lo, hi], whatever [x]. *)
Lemma clamp_within lo hi x :
  lo <= hi -> within lo hi (JS.Math_max lo (JS.Math_min hi x)).
Proof.
  intros Hlh. split.
  - apply Math_max_lb.
  - apply Math_max_lub; [done | apply Math_min_le_l].
Qed.
End Clamp.

Section Drift.
Import useSimulation.
Implicit Types (d : Draws) (c : JS.Clock) (st : Dashboard).

Lemma driftMetrics_in_range d c m : metrics_in_range (driftMetrics d c m).
Proof. repeat split; apply clamp_within; done. Qed.

Lemma driftBank_in_range r c b : bank_in_range (driftBank r c b).
Proof. repeat split; apply clamp_within; done. Qed.

(** The thresholds: 84 is down, 90 degraded, 96 healthy. *)
Example status_of_84_90_96 :
  status_of 84 = Bank.down /\ status_of 90 = Bank.degraded /\
  status_of 96 = Bank.healthy.
Proof. done. Qed.

(** What the callback computes: the status of the rate the bank had
    before the tick. *)
Lemma driftBank_status r c b :
  Bank.status (driftBank r c b) = status_of (Bank.success_rate b).
Proof. done. Qed.

Lemma driftTick_in_range d c st :
  metrics_in_range (metrics (driftTick d c st)) /\
  Forall bank_in_range (banks (driftTick d c st)).
Proof.
  split; [apply driftMetrics_in_range|].
  apply Forall_forall. intros b Hb. simpl in Hb.
  apply elem_of_lookup_imap in Hb as (i & b0 & -> & _).
  apply driftBank_in_range.
Qed.

Lemma drift_isConnected d c st : isConnected (drift d c st) = isConnected st.
Proof. unfold drift. by destruct (isConnected st) eqn:E. Qed.

Lemma drifts_isConnected ticks st : isConnected (drifts ticks st) = isConnected st.
Proof.
  revert st. induction ticks as [|t ticks IH]; intros st; [done|].
  simpl. rewrite IH. apply drift_isConnected.
Qed.

Lemma drifts_snoc ticks t st :
  drifts (ticks ++ [t]) st = drift t.1 t.2 (drifts ticks st).
Proof. unfold drifts. by rewrite foldl_snoc. Qed.
End Drift.

(** C9. While the connection is not open, after one or more drift ticks,
    from any prior state and with any random draws, the metrics satisfy
    success_rate in [85,99], avg_latency in [100,500], error_rate in [1,15],
    and every bank satisfies success_rate in [80,99.5], avg_latency in
    [100,400]. *)
Theorem drift_keeps_ranges (ticks : list (useSimulation.Draws * JS.Clock))
    (t : useSimulation.Draws * JS.Clock) (st : Dashboard) :
  isConnected st = false ->
  metrics_in_range (metrics (useSimulation.drifts (ticks ++ [t]) st)) /\
  Forall bank_in_range (banks (useSimulation.drifts (ticks ++ [t]) st)).
Proof.
  intros Hoff. rewrite drifts_snoc. unfold useSimulation.drift.
  rewrite drifts_isConnected, Hoff. apply driftTick_in_range.
Qed.

Lemma drift_keeps_ranges_witness :
  metrics_in_range
    (metrics (useSimulation.drifts ([] ++ [(draws 0.75 0.125, clock0)])
                disconnected_after_banks)) /\
  Forall bank_in_range
    (banks (useSimulation.drifts ([] ++ [(draws 0.75 0.125, clock0)])
              disconnected_after_banks)).
Proof. apply drift_keeps_ranges. reflexivity. Defined.

(** C3. A bank at 92.25 % drifts to 91.875 %: the tick leaves it "healthy",
    the status of the rate it had before, while the threshold function gives
    "degraded" for the rate it has now. *)
Theorem drift_status_lags_rate :
  exists b,
    banks (useSimulation.drift (draws 0.5 0.125) clock0 disconnected_after_banks) = [b] /\
    (Bank.success_rate b == 91.875)%Q /\
    Bank.status b = Bank.healthy /\
    status_of (Bank.success_rate b) = Bank.degraded.
Proof. eexists. split; [reflexivity|]. split; [reflexivity|]. split; reflexivity. Qed.

(** C4. From the initial metrics (success_rate 97.5, error_rate 2.5) a draw
    of 0.75 raises success_rate to 98; error_rate is 100 - 97.5 = 2.5, not
    100 - 98 = 2. *)
Theorem drift_error_rate_lags_success_rate :
  let m := metrics (useSimulation.drift (draws 0.75 0.5) clock0 (initial clock0)) in
  (Metrics.success_rate m == 98)%Q /\
  (Metrics.error_rate m == 2.5)%Q /\
  ~ (Metrics.error_rate m
     == JS.Math_max 1 (JS.Math_min 15 (100 - Metrics.success_rate m)))%Q.
Proof.
  split; [reflexivity|]. split; [reflexivity|].
  intros H. vm_compute in H. discriminate H.
Qed.

(** ** Fallback simulator: narration *)

Section Narration.
Import useSimulation.

Lemma pick_Some {A} (random : Q) (messages : list A) :
  (0 <= random)%Q -> (random < 1)%Q -> messages <> [] ->
  exists msg, pick random messages = Some msg /\ msg ∈ messages.
Proof.
  intros H0 H1 Hne. unfold pick.
  set (n := Z.of_nat (length messages)).
  assert (Hn : 0 < n) by (destruct messages; [done | simpl in n; lia]).
  assert (Hlo : 0 <= Qfloor (random * inject_Z n)).
  { rewrite <- (Qfloor_Z 0). apply Qfloor_resp_le.
    apply Qmult_le_0_compat; [done|]. change 0%Q with (inject_Z 0).
    rewrite <- Zle_Qle. lia. }
  assert (Hhi : Qfloor (random * inject_Z n) < n).
  { rewrite Zlt_Qlt. eapply Qle_lt_trans; [apply Qfloor_le|].
    rewrite <- (Qmult_1_l (inject_Z n)) at 2.
    apply Qmult_lt_r; [|done]. change 0%Q with (inject_Z 0).
    rewrite <- Zlt_Qlt. lia. }
  destruct (Z.ltb_spec (Qfloor (random * inject_Z n)) 0) as [|_]; [lia|].
  destruct (lookup_lt_is_Some_2 messages (Z.to_nat (Qfloor (random * inject_Z n))))
    as [msg Hmsg]; [lia|].
  exists msg. split; [done|]. by eapply list_elem_of_lookup_2.
Qed.

(** Every stage of the cycle has a non-empty message list. *)
Lemma stage_has_messages i stage :
  stages !! i = Some stage ->
  exists messages, thoughtMessages stage = Some messages /\ messages <> [].
Proof.
  intros Hi. do 5 (destruct i as [|i]; [injection Hi as <-; by eexists|]).
  done.
Qed.

(** The interval exists exactly while the connection is not open and the
    simulator is switched on, and starts at "observe". *)
Lemma thoughtEffect_installed st :
  thoughtEffect st = Some 0%nat <->
  isConnected st = false /\ simulatorRunning st = true.
Proof.
  unfold thoughtEffect.
  destruct (isConnected st), (simulatorRunning st); simpl; split;
    (done || intros [? ?]; done).
Qed.
End Narration.

(** C5 (as stated): with agent execution disabled a tick leaves the cycle
    position where it was. *)
Lemma suppressed_tick_does_not_advance :
  agentRunning paused = false /\
  fst <$> useSimulation.thoughtTick 0.5 clock0 0 paused
  <> Some ((0 + 1) `mod` length useSimulation.stages)%nat.
Proof. split; [reflexivity|]. vm_compute. discriminate. Qed.

(** C5 (amended). A narration tick with agent execution enabled advances the
    cycle position exactly once, wrapping after "learn", appends one log
    entry of the stage it was at and makes that stage current; a tick with
    agent execution disabled appends no log entry and leaves the cycle
    position, and the whole state, unchanged. *)
Theorem narration_tick_cycle (random : Q) (c : JS.Clock) (i : nat)
    (st : Dashboard) :
  (agentRunning st = false ->
     useSimulation.thoughtTick random c i st = Some (i, st)) /\
  (agentRunning st = true ->
   (0 <= random)%Q -> (random < 1)%Q ->
   (i < length useSimulation.stages)%nat ->
     exists stage msg st',
       useSimulation.stages !! i = Some stage /\
       useSimulation.thoughtTick random c i st
       = Some (((i + 1) `mod` 5)%nat, st') /\
       agentLogs st'
       = addAgentLog (useSimulation.demo_entry c stage msg) (agentLogs st) /\
       currentStage st' = stage).
Proof.
  unfold useSimulation.thoughtTick. split.
  - intros ->. done.
  - intros -> H0 H1 Hi. simpl negb. cbv iota.
    destruct (lookup_lt_is_Some_2 useSimulation.stages i Hi) as [stage Hstage].
    destruct (stage_has_messages i stage Hstage) as (messages & Hm & Hne).
    destruct (pick_Some random messages H0 H1 Hne) as (msg & Hpick & _).
    exists stage, msg. eexists. split; [done|].
    rewrite Hstage. simpl. rewrite Hm. simpl. rewrite Hpick. simpl.
    split; [reflexivity|]. done.
Qed.

Lemma narration_tick_cycle_witness :
  exists stage msg st',
    useSimulation.stages !! 4%nat = Some stage /\
    useSimulation.thoughtTick 0.5 clock0 4 narrating = Some (((4 + 1) `mod` 5)%nat, st') /\
    agentLogs st'
    = addAgentLog (useSimulation.demo_entry clock0 stage msg) (agentLogs narrating) /\
    currentStage st' = stage.
Proof.
  apply (proj2 (narration_tick_cycle 0.5 clock0 4 narrating)).
  - reflexivity.
  - unfold Qle. simpl. lia.
  - unfold Qlt. simpl. lia.
  - simpl. lia.
Defined.

(** ** Invariants of the component state under every handler *)

Section Handlers.
Implicit Types (st : Dashboard) (e : Event) (q : list ApprovalRequest).

Lemma append_length a (prev : list AgentLog) : (length (append a prev) <= 101)%nat.
Proof.
  rewrite append_spec, length_app, most_recent_length. simpl. lia.
Qed.

(** A handler run leaves the log store alone or appends one entry to it. *)
Lemma step_logs e st :
  agentLogs (step e st) = agentLogs st \/
  exists a, agentLogs (step e st) = append a (agentLogs st).
Proof.
  destruct e as [c| |c msg|r c a|r a| |c sc|ts c resp sc| | |c| |random c i|d c];
    simpl.
  - right. by exists (SystemAppend c "Connected to backend WebSocket").
  - by left.
  - destruct msg as [data|data|data|data|data|ty]; simpl; try by left.
    + right. by exists (AgentAppend data).
    + right. by exists (AgentAppend (action_entry c data)).
  - destruct r; simpl; [right|by left].
    by exists (AgentAppend (approved_entry c a)).
  - by left.
  - by left.
  - right. by eexists (SystemAppend c _).
  - right. destruct resp as [[|] txt|err]; by eexists (SystemAppend c _).
  - by left.
  - by left.
  - right. by exists (SystemAppend c "Observation forced.").
  - by left.
  - unfold useSimulation.thoughtTick.
    destruct (agentRunning st); simpl; [|by left].
    destruct (useSimulation.stages !! i) as [stage|]; simpl; [|by left].
    destruct (useSimulation.thoughtMessages stage) as [ms|]; simpl; [|by left].
    destruct (useSimulation.pick random ms) as [msg|]; simpl; [|by left].
    right. by exists (AgentAppend (useSimulation.demo_entry c stage msg)).
  - unfold useSimulation.drift. destruct (isConnected st); by left.
Qed.

Lemma run_snoc events e st : run (events ++ [e]) st = step e (run events st).
Proof. unfold run. by rewrite foldl_snoc. Qed.

Lemma resolve_NoDup a q : NoDup (queued_ids q) -> NoDup (queued_ids (resolve a q)).
Proof.
  intros Hq. eapply sublist_NoDup; [exact Hq|].
  unfold queued_ids, resolve. apply fmap_sublist, sublist_filter.
Qed.

Lemma resolve_length a q : (length (resolve a q) <= length q)%nat.
Proof. apply length_filter. Qed.

(** What a handler run can do to the approval queue. *)
Lemma step_queue e st :
  pendingApprovals (step e st) = pendingApprovals st \/
  (exists d, pendingApprovals (step e st) = enqueue d (pendingApprovals st)) \/
  (exists a, pendingApprovals (step e st) = resolve a (pendingApprovals st)) \/
  pendingApprovals (step e st) = [].
Proof.
  destruct e as [c| |c msg|r c a|r a| |c sc|ts c resp sc| | |c| |random c i|d c];
    simpl; try by left.
  - destruct msg; simpl; try by left. right; left. by eexists.
  - right; right; left. exists a. by destruct r.
  - right; right; left. by exists a.
  - by do 3 right.
  - destruct resp as [[|] txt|err]; by left.
  - unfold useSimulation.thoughtTick.
    destruct (agentRunning st); simpl; [|by left].
    destruct (useSimulation.stages !! i) as [stage|]; simpl; [|by left].
    destruct (useSimulation.thoughtMessages stage) as [ms|]; simpl; [|by left].
    destruct (useSimulation.pick random ms) as [msg|]; simpl; by left.
  - unfold useSimulation.drift. destruct (isConnected st); by left.
Qed.
End Handlers.

(** X1. Whatever handlers of the component run, in whatever order, the log
    store never holds more than 101 entries, and one uninterrupted handler
    run (for an asynchronous handler, each part between two awaits) adds at
    most one entry. *)
Theorem run_logs_bounded (events : list Event) (c : JS.Clock) :
  (length (agentLogs (run events (initial c))) <= 101)%nat /\
  (forall e, (length (agentLogs (step e (run events (initial c))))
              <= S (length (agentLogs (run events (initial c)))))%nat).
Proof.
  assert (Hstep : forall e st,
    (length (agentLogs st) <= 101)%nat ->
    (length (agentLogs (step e st)) <= 101)%nat /\
    (length (agentLogs (step e st)) <= S (length (agentLogs st)))%nat).
  { intros e st Hst. destruct (step_logs e st) as [-> | [a ->]]; [lia|].
    split; [apply append_length|].
    rewrite append_spec, length_app, most_recent_length. simpl. lia. }
  assert (Hinv : (length (agentLogs (run events (initial c))) <= 101)%nat).
  { induction events as [|e events IH] using rev_ind; [simpl; lia|].
    rewrite run_snoc. by apply Hstep. }
  split; [done|]. intros e. by apply Hstep.
Qed.

(** X2. Whatever handlers run, in whatever order (messages, approvals,
    rejections, reject-all, simulator ticks), the approval queue holds at most
    one entry per intervention_id and at most 50 entries. *)
Theorem run_queue_invariant (events : list Event) (c : JS.Clock) :
  NoDup (queued_ids (pendingApprovals (run events (initial c)))) /\
  (length (pendingApprovals (run events (initial c))) <= 50)%nat.
Proof.
  induction events as [|e events [IH1 IH2]] using rev_ind.
  - split; [constructor | simpl; lia].
  - rewrite run_snoc.
    destruct (step_queue e (run events (initial c)))
      as [-> | [[d ->] | [[a ->] | ->]]].
    + done.
    + split; [by apply enqueue_NoDup | by apply enqueue_length].
    + split; [by apply resolve_NoDup|].
      pose proof (resolve_length a (pendingApprovals (run events (initial c)))). lia.
    + split; [constructor | simpl; lia].
Qed.

(** ** Approval queue and ledger: how the handlers compose *)

Section Compose.
Implicit Types (st : Dashboard) (q : list ApprovalRequest).

Lemma filter_none {A} (P : A -> Prop) `{forall x, Decision (P x)} (l : list A) :
  (forall x, x ∈ l -> ~ P x) -> filter P l = [].
Proof.
  induction l as [|x l IH]; intros Hl; [done|].
  rewrite filter_cons_False by (apply Hl; left).
  apply IH. intros y Hy. apply Hl. by right.
Qed.

Lemma enqueue_ids d q i :
  i ∈ queued_ids (enqueue d q) -> i = Approval.intervention_id d \/ i ∈ queued_ids q.
Proof.
  destruct (decide (Approval.intervention_id d ∈ queued_ids q)) as [Hin|Hnin].
  - rewrite enqueue_queued by done. by right.
  - rewrite enqueue_fresh by done. unfold queued_ids. rewrite fmap_take.
    intros Hi. apply elem_of_sublist with (l2 := Approval.intervention_id <$> d :: q)
      in Hi; [|apply sublist_take].
    rewrite fmap_cons in Hi. by apply elem_of_cons in Hi.
Qed.

Lemma resolve_ids a q i :
  i ∈ queued_ids (resolve a q) ->
  i ∈ queued_ids q /\ i <> Approval.intervention_id a.
Proof.
  unfold queued_ids, resolve. rewrite !list_elem_of_fmap.
  intros (p & -> & Hp). apply list_elem_of_filter in Hp as [Hne Hp].
  split; [by exists p | done].
Qed.

(** An id enters the queue by an [approval_required] message for it only. *)
Lemma step_queue_ids i e st :
  i ∈ queued_ids (pendingApprovals (step e st)) ->
  i ∈ queued_ids (pendingApprovals st) \/ requeues i e = true.
Proof.
  destruct e as [c| |c msg|r c a|r a| |c sc|ts c resp sc| | |c| |random c j|d c];
    simpl; try by left.
  - destruct msg as [data|data|data|data|data|ty]; simpl; try by left.
    intros [-> | Hi]%enqueue_ids; [right; apply String.eqb_refl | by left].
  - destruct r; simpl; intros [Hi _]%resolve_ids; by left.
  - intros [Hi _]%resolve_ids. by left.
  - unfold queued_ids. simpl. by intros ?%elem_of_nil.
  - destruct resp as [[|] txt|err]; by left.
  - unfold useSimulation.thoughtTick.
    destruct (agentRunning st); simpl; [|by left].
    destruct (useSimulation.stages !! j) as [stage|]; simpl; [|by left].
    destruct (useSimulation.thoughtMessages stage) as [ms|]; simpl; [|by left].
    destruct (useSimulation.pick random ms) as [msg|]; simpl; by left.
  - unfold useSimulation.drift. destruct (isConnected st); by left.
Qed.

(** A queued request stays queued through any event that is neither its
    resolution, nor reject-all, nor an arrival. *)
Lemma step_queue_keeps p e st :
  resolves (Approval.intervention_id p) e = false -> is_arrival e = false ->
  p ∈ pendingApprovals st -> p ∈ pendingApprovals (step e st).
Proof.
  assert (Hkeep : forall a q, (Approval.intervention_id a =? Approval.intervention_id p)%string = false ->
            p ∈ q -> p ∈ resolve a q).
  { intros a q Hne Hp. apply list_elem_of_filter. split; [|done].
    intros Heq. apply String.eqb_neq in Hne. by apply Hne. }
  destruct e as [c| |c msg|r c a|r a| |c sc|ts c resp sc| | |c| |random c j|d c];
    simpl; try done.
  - by destruct msg.
  - intros Hne _ Hp. destruct r; simpl; by apply Hkeep.
  - intros Hne _ Hp. by apply Hkeep.
  - by destruct resp as [[|] txt|err].
  - intros _ _ Hp. unfold useSimulation.thoughtTick.
    destruct (agentRunning st); simpl; [|done].
    destruct (useSimulation.stages !! j) as [stage|]; simpl; [|done].
    destruct (useSimulation.thoughtMessages stage) as [ms|]; simpl; [|done].
    destruct (useSimulation.pick random ms) as [msg|]; simpl; done.
  - intros _ _ Hp. unfold useSimulation.drift. by destruct (isConnected st).
Qed.

(** Only approvals and [intervention] messages write the ledger. *)
Lemma step_ledger e st :
  is_intervention e = false ->
  interventions (step e st) = approvals [e] ++ interventions st.
Proof.
  destruct e as [c| |c msg|r c a|r a| |c sc|ts c resp sc| | |c| |random c j|d c];
    simpl; try done.
  - by destruct msg.
  - intros _. by destruct r.
  - by destruct resp as [[|] txt|err].
  - intros _. unfold useSimulation.thoughtTick.
    destruct (agentRunning st); simpl; [|done].
    destruct (useSimulation.stages !! j) as [stage|]; simpl; [|done].
    destruct (useSimulation.thoughtMessages stage) as [ms|]; simpl; [|done].
    destruct (useSimulation.pick random ms) as [msg|]; simpl; done.
  - intros _. unfold useSimulation.drift. by destruct (isConnected st).
Qed.
End Compose.

(** X3. A request that is queued by an [approval_required] message and then
    rejected leaves the queue as it was when there was room; when the queue
    was full, its oldest entry is lost: the 49 most recent ones remain. *)
Theorem reject_after_enqueue (r : FetchResult) (c : JS.Clock)
    (d : ApprovalRequest) (st : Dashboard) :
  Approval.intervention_id d ∉ queued_ids (pendingApprovals st) ->
  pendingApprovals (handleReject r d (onmessage c (ApprovalRequired d) st))
  = take 49 (pendingApprovals st) /\
  ((length (pendingApprovals st) < 50)%nat ->
   pendingApprovals (handleReject r d (onmessage c (ApprovalRequired d) st))
   = pendingApprovals st).
Proof.
  intros Hfresh. simpl.
  assert (Heq : resolve d (enqueue d (pendingApprovals st))
                = take 49 (pendingApprovals st)).
  { rewrite enqueue_fresh by done.
    change (take 50 (d :: pendingApprovals st))
      with ([] ++ d :: take 49 (pendingApprovals st)).
    apply resolve_split; [done | apply not_elem_of_nil |].
    intros Hin. apply Hfresh. unfold queued_ids in *.
    rewrite fmap_take in Hin. eapply elem_of_sublist; [exact Hin|].
    apply sublist_take. }
  split; [done|]. intros Hroom. rewrite Heq. apply take_ge. lia.
Qed.

Lemma reject_after_enqueue_witness :
  pendingApprovals (handleReject Rejected (request 2)
    (onmessage clock0 (ApprovalRequired (request 2))
       (setPendingApprovals (fun _ => [request 1; request 0]) (initial clock0))))
  = take 49 [request 1; request 0].
Proof.
  apply (proj1 (reject_after_enqueue Rejected clock0 (request 2)
    (setPendingApprovals (fun _ => [request 1; request 0]) (initial clock0))
    ltac:(apply (bool_decide_unpack _); vm_compute; exact I))).
Defined.

(** X4. Approve-all with any other handlers running between the
    settlements: once the approval of a request has settled, its id is out of
    the queue and stays out through every later handler run, unless an
    approval_required message for that id arrives; a queued request stays
    queued through every handler run that is not its own approval or
    rejection, reject-all or an arrival; and as long as no intervention
    message arrives the ledger gains exactly one record per settled approval,
    the last settled first. *)
Theorem approve_all_interleaved (st : Dashboard) :
  (forall before after r c a,
     forallb (fun e => negb (requeues (Approval.intervention_id a) e)) after = true ->
     Approval.intervention_id a
       ∉ queued_ids (pendingApprovals (run (before ++ Approve r c a :: after) st))) /\
  (forall events p,
     forallb (fun e => negb (resolves (Approval.intervention_id p) e)
                       && negb (is_arrival e)) events = true ->
     p ∈ pendingApprovals st -> p ∈ pendingApprovals (run events st)) /\
  (forall events,
     forallb (fun e => negb (is_intervention e)) events = true ->
     interventions (run events st) = reverse (approvals events) ++ interventions st).
Proof.
  split; [|split].
  - intros before after r c a.
    induction after as [|e after IH] using rev_ind; intros Hafter.
    + rewrite run_snoc. intros Hin.
      assert (Hq : pendingApprovals (step (Approve r c a) (run before st))
                   = resolve a (pendingApprovals (run before st)))
        by (simpl; by destruct r).
      rewrite Hq in Hin. by apply resolve_ids in Hin as [_ Hne].
    + rewrite forallb_app in Hafter. apply andb_true_iff in Hafter as [Hafter He].
      simpl in He. rewrite andb_true_r in He. apply negb_true_iff in He.
      replace (before ++ Approve r c a :: after ++ [e])
        with ((before ++ Approve r c a :: after) ++ [e])
        by (by rewrite <- app_assoc).
      rewrite run_snoc. intros [Hin | Hre]%step_queue_ids.
      * by apply IH.
      * congruence.
  - intros events p. induction events as [|e events IH] using rev_ind; [done|].
    rewrite forallb_app. intros [Hev He]%andb_true_iff Hp.
    simpl in He. rewrite andb_true_r in He.
    apply andb_true_iff in He as [He1 He2].
    apply negb_true_iff in He1, He2.
    rewrite run_snoc. apply step_queue_keeps; [done | done | by apply IH].
  - intros events. induction events as [|e events IH] using rev_ind; [done|].
    rewrite forallb_app. intros [Hev He]%andb_true_iff.
    simpl in He. rewrite andb_true_r in He. apply negb_true_iff in He.
    rewrite run_snoc, step_ledger, IH by done.
    unfold approvals. rewrite flat_map_app, reverse_app, <- app_assoc.
    f_equal. simpl. rewrite app_nil_r. by destruct e.
Qed.

Lemma approve_all_interleaved_witness :
  (Approval.intervention_id (request 0)
     ∉ queued_ids (pendingApprovals
         (run ([Receive clock0 (ApprovalRequired (request 0));
                Receive clock0 (ApprovalRequired (request 1))]
               ++ Approve Rejected clock0 (request 0)
                  :: [Receive clock0 (ApprovalRequired (request 2));
                      Approve (Resolved true) clock0 (request 1)])
            (initial clock0)))) /\
  interventions
    (run [Receive clock0 (ApprovalRequired (request 0));
          Approve Rejected clock0 (request 0);
          Approve (Resolved true) clock0 (request 1)] (initial clock0))
  = reverse (approvals [Receive clock0 (ApprovalRequired (request 0));
                        Approve Rejected clock0 (request 0);
                        Approve (Resolved true) clock0 (request 1)])
    ++ interventions (initial clock0).
Proof.
  split.
  - apply (proj1 (approve_all_interleaved (initial clock0))). reflexivity.
  - apply (proj2 (proj2 (approve_all_interleaved (initial clock0)))). reflexivity.
Defined.

(** X5. However far approvals have grown the ledger, an [intervention]
    message cuts it back: after the message the ledger holds the new record
    followed by the 49 most recent earlier ones, at most 50 in all. *)
Theorem intervention_restores_cap (events : list Event) (c : JS.Clock)
    (m : Intervention) (st : Dashboard) :
  interventions (step (Receive c (InterventionMsg m)) (run events st))
  = recorded m :: take 49 (interventions (run events st)) /\
  (length (interventions (step (Receive c (InterventionMsg m)) (run events st)))
   <= 50)%nat.
Proof.
  assert (H : interventions (step (Receive c (InterventionMsg m)) (run events st))
              = recorded m :: take 49 (interventions (run events st)))
    by apply record_intervention_spec.
  split; [done|]. rewrite H, length_cons, length_take. lia.
Qed.

(** X6. A record the dispatcher marks canRollback always carries a
    rollbackAction, whatever canRollback and rollbackAction the payload
    itself carried. *)
Theorem reversible_has_rollbackAction (data : Intervention) :
  Intervention.canRollback (recorded data) = true ->
  exists text, Intervention.rollbackAction (recorded data) = Some text.
Proof.
  simpl. unfold includes, reversible_actions. simpl.
  rewrite orb_false_r, !orb_true_iff, !String.eqb_eq.
  intros [-> | [-> | ->]]; by eexists.
Qed.

Lemma reversible_has_rollbackAction_witness :
  exists text,
    Intervention.rollbackAction (recorded (executed 3 "adjust_retry_config"))
    = Some text.
Proof.
  apply (reversible_has_rollbackAction (executed 3 "adjust_retry_config")).
  reflexivity.
Defined.

(** ** Fallback simulator: runs of the narration generator *)

Section NarrationRuns.
Import useSimulation.

Lemma thoughtTick_enabled random c i st :
  agentRunning st = true -> unit_draw random -> (i < 5)%nat ->
  exists stage messages msg,
    stages !! i = Some stage /\
    thoughtMessages stage = Some messages /\
    msg ∈ messages /\
    thoughtTick random c i st
    = Some (((i + 1) `mod` 5)%nat,
            setCurrentStage stage
              (setAgentLogs (addAgentLog (demo_entry c stage msg)) st)).
Proof.
  intros Hrun [H0 H1] Hi.
  destruct (lookup_lt_is_Some_2 stages i Hi) as [stage Hstage].
  destruct (stage_has_messages i stage Hstage) as (messages & Hm & Hne).
  destruct (pick_Some random messages H0 H1 Hne) as (msg & Hpick & Hin).
  exists stage, messages, msg. repeat (split; [done|]).
  unfold thoughtTick. rewrite Hrun, Hstage. simpl. rewrite Hm. simpl.
  rewrite Hpick. done.
Qed.

End NarrationRuns.

(** X7. With agent execution enabled, any number of consecutive narration
    ticks of one interval all succeed; after [n] ticks from position [i] the
    position is [(i + n) mod 5], agent execution is still enabled, and the
    log store has received [n] entries whose stages follow the cycle
    observe, reason, decide, act, learn from position [i] on. *)
Theorem narration_run (ticks : list (Q * JS.Clock)) (i : nat) (st : Dashboard) :
  agentRunning st = true -> (i < 5)%nat ->
  Forall (fun t => unit_draw t.1) ticks ->
  exists st' entries,
    thoughtTicks ticks i st = Some (((i + length ticks) `mod` 5)%nat, st') /\
    agentRunning st' = true /\
    length entries = length ticks /\
    (forall k e, entries !! k = Some e ->
       useSimulation.stages !! ((i + k) `mod` 5)%nat = Some (Log.stage e)) /\
    agentLogs st' = appends (AgentAppend <$> entries) (agentLogs st).
Proof.
  revert i st. induction ticks as [|[random c] ticks IH]; intros i st Hrun Hi Hdraws.
  - exists st, []. split.
    { cbn [thoughtTicks length]. rewrite Nat.add_0_r, Nat.mod_small by done. done. }
    repeat split; [done|]. intros k e Hk. done.
  - apply Forall_cons in Hdraws as [Hdraw Hdraws].
    destruct (thoughtTick_enabled random c i st Hrun Hdraw Hi)
      as (stage & messages & msg & Hstage & _ & _ & Htick).
    destruct (IH ((i + 1) `mod` 5)%nat
                (setCurrentStage stage
                   (setAgentLogs (addAgentLog (useSimulation.demo_entry c stage msg)) st)))
      as (st' & entries & Hticks & Hrun' & Hlen & Hstages & Hlogs);
      [done | apply Nat.mod_upper_bound; lia | done |].
    exists st', (useSimulation.demo_entry c stage msg :: entries).
    simpl thoughtTicks. rewrite Htick, Hticks.
    split; [|split; [done|split; [simpl; lia|split]]].
    + do 2 f_equal. simpl length.
      rewrite Nat.Div0.add_mod_idemp_l. f_equal. lia.
    + intros [|k] e Hk.
      * injection Hk as <-. rewrite Nat.add_0_r, Nat.mod_small by done.
        exact Hstage.
      * change (entries !! k = Some e) in Hk. apply Hstages in Hk.
        rewrite Nat.Div0.add_mod_idemp_l in Hk.
        replace (i + S k)%nat with (i + 1 + k)%nat by lia. done.
    + rewrite Hlogs. done.
Qed.

Lemma narration_run_witness :
  exists st' entries,
    thoughtTicks [(0.5%Q, clock0); (0.25%Q, clock0)] 4 narrating
    = Some (((4 + length [(0.5%Q, clock0); (0.25%Q, clock0)]) `mod` 5)%nat, st') /\
    agentRunning st' = true /\
    length entries = length [(0.5%Q, clock0); (0.25%Q, clock0)] /\
    (forall k e, entries !! k = Some e ->
       useSimulation.stages !! ((4 + k) `mod` 5)%nat = Some (Log.stage e)) /\
    agentLogs st' = appends (AgentAppend <$> entries) (agentLogs narrating).
Proof.
  apply (narration_run [(0.5%Q, clock0); (0.25%Q, clock0)] 4 narrating).
  - reflexivity.
  - lia.
  - repeat constructor; simpl; lra.
Defined.

(** X8. The first tick of a newly installed interval, with agent execution
    enabled, makes "observe" the current stage and appends, as the last
    entry of the log store, an "observe" entry whose type and content are one
    of the four entries of the observe table. *)
Theorem first_tick_observes (random : Q) (c : JS.Clock) (st : Dashboard) :
  agentRunning st = true -> unit_draw random ->
  exists st' e messages,
    useSimulation.thoughtTick random c 0 st = Some (1%nat, st') /\
    currentStage st' = Log.observe /\
    last (agentLogs st') = Some e /\
    Log.stage e = Log.observe /\
    useSimulation.thoughtMessages Log.observe = Some messages /\
    length messages = 4%nat /\
    (Log.type e, Log.content e) ∈ messages.
Proof.
  intros Hrun Hdraw.
  destruct (thoughtTick_enabled random c 0 st Hrun Hdraw ltac:(lia))
    as (stage & messages & msg & Hstage & Hm & Hin & Htick).
  injection Hstage as <-. injection Hm as <-.
  eexists _, (useSimulation.demo_entry c Log.observe msg), _.
  split; [exact Htick|]. split; [done|].
  split; [simpl; unfold addAgentLog; apply last_snoc|].
  split; [done|]. split; [done|]. split; [done|].
  simpl. by destruct msg.
Qed.

Lemma first_tick_observes_witness :
  exists st' e messages,
    useSimulation.thoughtTick 0.5 clock0 0 narrating = Some (1%nat, st') /\
    currentStage st' = Log.observe /\
    last (agentLogs st') = Some e /\
    Log.stage e = Log.observe /\
    useSimulation.thoughtMessages Log.observe = Some messages /\
    length messages = 4%nat /\
    (Log.type e, Log.content e) ∈ messages.
Proof.
  apply (first_tick_observes 0.5 clock0 narrating).
  - reflexivity.
  - split; simpl; lra.
Defined.

(** ** Fallback simulator: what a drift tick does to each field *)

Section DriftSteps.
Import useSimulation.
Local Open Scope Q_scope.

Lemma Qle_bool_false a b : Qle_bool a b = false -> b < a.
Proof.
  intros E. apply Qnot_le_lt. intros H. apply Qle_bool_iff in H. congruence.
Qed.

(** A clamped value is no farther from an in-range [p] than the unclamped
    one. *)
Lemma clamp_near lo hi p delta x :
  lo <= p -> p <= hi -> p - delta <= x -> x <= p + delta ->
  within (p - delta) (p + delta) (JS.Math_max lo (JS.Math_min hi x)).
Proof.
  intros Hlo Hhi Hx1 Hx2. unfold within, JS.Math_max, JS.Math_min.
  destruct (Qle_bool hi x) eqn:E1;
    [apply Qle_bool_iff in E1 | apply Qle_bool_false in E1];
    (destruct (Qle_bool lo _) eqn:E2;
      [apply Qle_bool_iff in E2 | apply Qle_bool_false in E2]); lra.
Qed.

Lemma clamp_id lo hi x :
  lo <= x -> x <= hi -> JS.Math_max lo (JS.Math_min hi x) == x.
Proof.
  intros Hlo Hhi. unfold JS.Math_max, JS.Math_min.
  destruct (Qle_bool hi x) eqn:E1;
    [apply Qle_bool_iff in E1 | apply Qle_bool_false in E1];
    (destruct (Qle_bool lo _) eqn:E2;
      [apply Qle_bool_iff in E2 | apply Qle_bool_false in E2]); lra.
Qed.

Lemma or_default_nonzero w d : ~ d == 0 -> ~ JS.or_default w d == 0.
Proof.
  intros Hd. unfold JS.or_default. destruct (Qeq_bool w 0) eqn:E; [done|].
  by apply Qeq_bool_neq.
Qed.

Lemma or_default_zero w d : w == 0 -> JS.or_default w d = d.
Proof.
  intros Hw. unfold JS.or_default. apply Qeq_bool_iff in Hw. by rewrite Hw.
Qed.

Lemma or_default_keeps w d : ~ w == 0 -> JS.or_default w d = w.
Proof.
  intros Hw. unfold JS.or_default. destruct (Qeq_bool w 0) eqn:E; [|done].
  apply Qeq_bool_iff in E. done.
Qed.
End DriftSteps.

(** X9. A drift tick keeps the bank list as it is in length, order, names
    and display names; it keeps every non-zero weight and replaces a zero
    weight by 25, so that no bank has weight 0 afterwards. *)
Theorem drift_keeps_bank_identity (d : useSimulation.Draws) (c : JS.Clock)
    (st : Dashboard) :
  Bank.name <$> banks (useSimulation.driftTick d c st) = Bank.name <$> banks st /\
  Bank.display_name <$> banks (useSimulation.driftTick d c st)
  = Bank.display_name <$> banks st /\
  Forall (fun b => ~ (Bank.weight b == 0)%Q) (banks (useSimulation.driftTick d c st)) /\
  (forall i b, banks st !! i = Some b -> ~ (Bank.weight b == 0)%Q ->
     Bank.weight <$> banks (useSimulation.driftTick d c st) !! i
     = Some (Bank.weight b)) /\
  (forall i b, banks st !! i = Some b -> (Bank.weight b == 0)%Q ->
     Bank.weight <$> banks (useSimulation.driftTick d c st) !! i
     = Some 25%Q).
Proof.
  simpl. split; [|split; [|split; [|split]]].
  - rewrite fmap_imap. apply imap_const.
  - rewrite fmap_imap. apply imap_const.
  - apply Forall_forall. intros b Hb.
    apply elem_of_lookup_imap in Hb as (i & b0 & -> & _). simpl.
    by apply or_default_nonzero.
  - intros i b Hb Hw. rewrite list_lookup_imap, Hb. simpl.
    by rewrite or_default_keeps.
  - intros i b Hb Hw. rewrite list_lookup_imap, Hb. simpl.
    by rewrite or_default_zero.
Qed.

Lemma drift_keeps_bank_identity_witness :
  Bank.weight <$> banks (useSimulation.driftTick (draws 0.75 0.125) clock0
                           disconnected_after_two_banks) !! 0%nat
  = Some (Bank.weight hdfc_at_threshold) /\
  Bank.weight <$> banks (useSimulation.driftTick (draws 0.75 0.125) clock0
                           disconnected_after_two_banks) !! 1%nat
  = Some 25%Q.
Proof.
  split.
  - apply (proj1 (proj2 (proj2 (proj2 (drift_keeps_bank_identity (draws 0.75 0.125)
      clock0 disconnected_after_two_banks)))) 0%nat hdfc_at_threshold).
    + reflexivity.
    + intros H. vm_compute in H. discriminate H.
  - apply (proj2 (proj2 (proj2 (proj2 (drift_keeps_bank_identity (draws 0.75 0.125)
      clock0 disconnected_after_two_banks)))) 1%nat sbi_unweighted).
    + reflexivity.
    + reflexivity.
Defined.

(** X10. When the values are already in their ranges, one drift tick moves
    the metrics' success_rate by at most 1 and avg_latency by at most 25,
    and a bank's success_rate by at most 0.5 and avg_latency by at most
    10. *)
Theorem drift_step_size (d : useSimulation.Draws) (r : Q * Q) (c : JS.Clock)
    (m : SystemMetrics) (b : BankHealth) :
  metrics_in_range m -> bank_in_range b ->
  unit_draw (useSimulation.for_success_rate d) ->
  unit_draw (useSimulation.for_avg_latency d) ->
  unit_draw r.1 -> unit_draw r.2 ->
  within (Metrics.success_rate m - 1) (Metrics.success_rate m + 1)
    (Metrics.success_rate (useSimulation.driftMetrics d c m)) /\
  within (Metrics.avg_latency m - 25) (Metrics.avg_latency m + 25)
    (Metrics.avg_latency (useSimulation.driftMetrics d c m)) /\
  within (Bank.success_rate b - 0.5) (Bank.success_rate b + 0.5)
    (Bank.success_rate (useSimulation.driftBank r c b)) /\
  within (Bank.avg_latency b - 10) (Bank.avg_latency b + 10)
    (Bank.avg_latency (useSimulation.driftBank r c b)).
Proof.
  intros ([? ?] & [? ?] & _) ([? ?] & [? ?]) [? ?] [? ?] [? ?] [? ?].
  simpl. repeat split; apply clamp_near; lra.
Qed.

Lemma drift_step_size_witness :
  within (Metrics.success_rate (metrics (initial clock0)) - 1)
         (Metrics.success_rate (metrics (initial clock0)) + 1)
    (Metrics.success_rate
       (useSimulation.driftMetrics (draws 0.75 0.125) clock0
          (metrics (initial clock0)))).
Proof.
  apply (drift_step_size (draws 0.75 0.125) (0.125%Q, 0.5%Q) clock0
           (metrics (initial clock0)) hdfc_at_threshold);
    unfold metrics_in_range, bank_in_range, within, unit_draw; simpl; lra.
Defined.



(** X12. Once the metrics are in range, that is from the second drift tick
    on, the clamp of error_rate is inactive: the error_rate a tick writes is
    exactly 100 minus the success_rate the snapshot had before that tick. *)
Theorem drift_error_rate_of_previous (ticks : list (useSimulation.Draws * JS.Clock))
    (t1 t2 : useSimulation.Draws * JS.Clock) (st : Dashboard) :
  isConnected st = false ->
  (Metrics.error_rate (metrics (useSimulation.drifts ((ticks ++ [t1]) ++ [t2]) st))
   == 100 - Metrics.success_rate (metrics (useSimulation.drifts (ticks ++ [t1]) st)))%Q.
Proof.
  intros Hoff.
  assert (Hrange : metrics_in_range
            (metrics (useSimulation.drifts (ticks ++ [t1]) st))).
  { rewrite drifts_snoc. unfold useSimulation.drift.
    rewrite drifts_isConnected, Hoff. apply driftTick_in_range. }
  rewrite (drifts_snoc (ticks ++ [t1])). unfold useSimulation.drift.
  rewrite drifts_isConnected, Hoff. simpl.
  destruct Hrange as ([? ?] & _). apply clamp_id; lra.
Qed.

Lemma drift_error_rate_of_previous_witness :
  (Metrics.error_rate (metrics (useSimulation.drifts
     (([] ++ [(draws 0.75 0.5, clock0)]) ++ [(draws 0.25 0.5, clock0)])
     (initial clock0)))
   == 100 - Metrics.success_rate (metrics (useSimulation.drifts
     ([] ++ [(draws 0.75 0.5, clock0)]) (initial clock0))))%Q.
Proof. apply drift_error_rate_of_previous. reflexivity. Defined.

Section Intervals.
Import useSimulation.
Implicit Types (h : Hooks) (st : Dashboard).

Lemma mount_intervals st : intervals_follow_flags (mount st).
Proof.
  unfold intervals_follow_flags, mount, thoughtEffect, driftEffect. simpl.
  destruct (isConnected st), (simulatorRunning st); simpl; split; try done;
    split; try done; intros [? ?]; done.
Qed.

Lemma rerender_intervals h st :
  intervals_follow_flags h -> intervals_follow_flags (rerender h st).
Proof.
  intros [Ht Hd]. unfold intervals_follow_flags, rerender. simpl. split.
  - destruct (decide (thought_deps st = thought_deps (dash h))) as [E|_].
    + injection E as -> -> _. done.
    + unfold thoughtEffect.
      destruct (isConnected st), (simulatorRunning st); simpl; split; try done;
        intros [? ?]; done.
  - destruct (decide (drift_deps st = drift_deps (dash h))) as [E|_].
    + unfold drift_deps in E. by rewrite E.
    + done.
Qed.

Lemma thoughtTick_flags random c i st i' st' :
  thoughtTick random c i st = Some (i', st') ->
  isConnected st' = isConnected st /\ simulatorRunning st' = simulatorRunning st.
Proof.
  unfold thoughtTick. destruct (agentRunning st); simpl.
  - destruct (stages !! i) as [stage|]; simpl; [|done].
    destruct (thoughtMessages stage) as [ms|]; simpl; [|done].
    destruct (pick random ms) as [msg|]; simpl; [|done].
    by intros [= _ <-].
  - by intros [= _ <-].
Qed.

Lemma hook_step_intervals e h :
  intervals_follow_flags h -> intervals_follow_flags (hook_step e h).
Proof.
  intros Hh.
  destruct e as [c| |c msg|r c a|r a| |c sc|ts c resp sc| | |c| |random c j|d c];
    try (by apply rerender_intervals).
  - simpl. destruct (thoughtInterval h) as [i|] eqn:Ei; [|done].
    destruct (thoughtTick random c i (dash h)) as [[i' st']|] eqn:Et; [|done].
    destruct (thoughtTick_flags _ _ _ _ _ _ Et) as [Hc Hs].
    destruct Hh as [Ht Hd]. unfold intervals_follow_flags. simpl.
    rewrite Hc, Hs, Hd. split; [|done]. rewrite <- Ht, Ei. done.
  - simpl. destruct (driftInterval h) eqn:Ed; [|done].
    destruct Hh as [Ht Hd]. unfold intervals_follow_flags. simpl. by rewrite Ed in *.
Qed.

Lemma hook_run_snoc events e h :
  hook_run (events ++ [e]) h = hook_step e (hook_run events h).
Proof. unfold hook_run. by rewrite foldl_snoc. Qed.

Lemma hook_run_intervals events h :
  intervals_follow_flags h -> intervals_follow_flags (hook_run events h).
Proof.
  intros Hh. induction events as [|e events IH] using rev_ind; [done|].
  rewrite hook_run_snoc. by apply hook_step_intervals.
Qed.

(** Without its interval a timer callback does not run. *)
Lemma timers_idle ticks h :
  thoughtInterval h = None -> driftInterval h = false ->
  forallb is_timer ticks = true -> hook_run ticks h = h.
Proof.
  intros Ht Hd. induction ticks as [|e ticks IH] using rev_ind; [done|].
  rewrite forallb_app. intros [Hticks He]%andb_true_iff.
  rewrite hook_run_snoc, IH by done.
  destruct e; try done; simpl; by rewrite ?Ht, ?Hd.
Qed.
End Intervals.

(** X13. With the effects of [useSimulation] re-run after every handler (an
    effect whose dependencies changed clears its interval and runs its body
    again), in every state reached from the mounted component the narration
    interval exists exactly when the connection is not open and the
    simulator is on, and the drift interval exactly when the connection is
    not open.  So while the connection is open no timer callback runs and
    the state stays as it is; and toggling agent execution replaces the
    narration interval, which restarts at "observe" if it exists. *)
Theorem intervals_track_connection (events : list Event) (c : JS.Clock) :
  (thoughtInterval (hook_run events (mount (initial c))) <> None <->
     isConnected (dash (hook_run events (mount (initial c)))) = false /\
     simulatorRunning (dash (hook_run events (mount (initial c)))) = true) /\
  driftInterval (hook_run events (mount (initial c)))
  = negb (isConnected (dash (hook_run events (mount (initial c))))) /\
  (isConnected (dash (hook_run events (mount (initial c)))) = true ->
   forall ticks, forallb is_timer ticks = true ->
     hook_run ticks (hook_run events (mount (initial c)))
     = hook_run events (mount (initial c))) /\
  (thoughtInterval (hook_step ToggleRunning (hook_run events (mount (initial c))))
   = None \/
   thoughtInterval (hook_step ToggleRunning (hook_run events (mount (initial c))))
   = Some 0%nat).
Proof.
  destruct (hook_run_intervals events (mount (initial c)) (mount_intervals _))
    as [Ht Hd].
  split; [done|]. split; [done|]. split.
  - intros Hopen ticks Hticks. apply timers_idle; [| |done].
    + destruct (thoughtInterval _) eqn:E; [|done].
      destruct Ht as [Ht _]. destruct (Ht ltac:(done)) as [Hn _]. congruence.
    + rewrite Hd, Hopen. done.
  - simpl. unfold rerender. simpl.
    destruct (decide _) as [E|_].
    + exfalso. unfold thought_deps, onToggleRunning in E. simpl in E.
      injection E as E. by destruct (agentRunning _).
    + unfold useSimulation.thoughtEffect. simpl.
      destruct (negb _ && _); [by right | by left].
Qed.

Lemma intervals_track_connection_witness :
  hook_run [Narrate 0.5 clock0 0; Drift (draws 0.75 0.125) clock0]
    (hook_run [ToggleSimulator; Open clock0] (mount (initial clock0)))
  = hook_run [ToggleSimulator; Open clock0] (mount (initial clock0)).
Proof.
  apply (proj1 (proj2 (proj2 (intervals_track_connection
           [ToggleSimulator; Open clock0] clock0)))).
  - reflexivity.
  - reflexivity.
Defined.

(** ** Log filter of the terminal *)

Section Filter.
Import AgentTerminal.

Lemma stage_name_inj s1 s2 : stage_name s1 = stage_name s2 -> s1 = s2.
Proof. by destruct s1, s2. Qed.

(** Under a stage name the predicate compares stages. *)
Lemma keeps_stage s log :
  keeps (stage_name s) log = true <-> Log.stage log = s.
Proof.
  unfold keeps.
  replace (stage_name s =? "all")%string with false by (by destruct s).
  replace (stage_name s =? "thoughts")%string with false by (by destruct s).
  replace (stage_name s =? "raw")%string with false by (by destruct s).
  replace (stage_name s =? "actions")%string with false by (by destruct s).
  rewrite String.eqb_eq. split; [apply stage_name_inj | by intros ->].
Qed.

(** Under the name of a stage the filter selects by stage. *)
Lemma filteredLogs_stage s logs :
  filteredLogs (stage_name s) logs
  = List.filter (fun log => bool_decide (Log.stage log = s)) logs.
Proof.
  unfold filteredLogs. apply List.filter_ext. intros log.
  destruct (keeps _ log) eqn:E.
  - apply keeps_stage in E. symmetry. by apply bool_decide_eq_true.
  - symmetry. apply bool_decide_eq_false. intros H.
    apply keeps_stage in H. congruence.
Qed.
End Filter.

(** X14. Under the filter named after a stage the terminal shows exactly the
    entries of that stage, in their order: an entry is shown under the tab of
    its own stage and under no other stage's. *)
Theorem filter_by_stage (s : Log.Stage) (logs : list AgentLog) :
  AgentTerminal.filteredLogs (AgentTerminal.stage_name s) logs `sublist_of` logs /\
  (forall e, e ∈ AgentTerminal.filteredLogs (AgentTerminal.stage_name s) logs <->
     e ∈ logs /\ Log.stage e = s).
Proof.
  rewrite filteredLogs_stage. split.
  - induction logs as [|log logs IH]; [constructor|]. simpl.
    destruct (bool_decide _); by constructor.
  - intros e. rewrite !list_elem_of_In, List.filter_In, bool_decide_eq_true. done.
Qed.

(** X15. The six stage filters split the log store: the numbers of entries
    shown under observe, reason, decide, act, learn and system add up to the
    number of entries. *)
Theorem stage_filters_partition (logs : list AgentLog) :
  length logs
  = (length (AgentTerminal.filteredLogs "observe" logs)
     + length (AgentTerminal.filteredLogs "reason" logs)
     + length (AgentTerminal.filteredLogs "decide" logs)
     + length (AgentTerminal.filteredLogs "act" logs)
     + length (AgentTerminal.filteredLogs "learn" logs)
     + length (AgentTerminal.filteredLogs "system" logs))%nat.
Proof.
  rewrite (filteredLogs_stage Log.observe), (filteredLogs_stage Log.reason),
    (filteredLogs_stage Log.decide), (filteredLogs_stage Log.act),
    (filteredLogs_stage Log.learn), (filteredLogs_stage Log.system).
  induction logs as [|log logs IH]; [done|]. simpl.
  destruct (Log.stage log); repeat case_bool_decide; try congruence; simpl; lia.
Qed.

(** X16. The entries [addSystemLog] writes are shown under the "all" tab and
    under no other tab the terminal offers. *)
Theorem system_entries_only_under_all (c : JS.Clock) (text f : string)
    (logs : list AgentLog) :
  f ∈ AgentTerminal.tabs ->
  (system_entry c text ∈ AgentTerminal.filteredLogs f (addSystemLog c text logs)
   <-> f = "all").
Proof.
  intros Hf. unfold AgentTerminal.filteredLogs.
  rewrite list_elem_of_In, List.filter_In. split.
  - intros [_ Hk]. unfold AgentTerminal.tabs in Hf.
    repeat (apply elem_of_cons in Hf as [-> | Hf]; [done || by vm_compute in Hk|]).
    by apply elem_of_nil in Hf.
  - intros ->. split; [|done]. apply list_elem_of_In.
    unfold addSystemLog. apply elem_of_app. right. left.
Qed.

Lemma system_entries_only_under_all_witness :
  system_entry clock0 "Connected to backend WebSocket"
    ∈ AgentTerminal.filteredLogs "act"
        (addSystemLog clock0 "Connected to backend WebSocket" [])
  <-> "act" = "all".
Proof.
  apply system_entries_only_under_all.
  apply (bool_decide_unpack _). vm_compute. exact I.
Defined.

(** X17. A filter value that is neither "all", "thoughts", "raw", "actions"
    nor the name of a stage shows nothing. *)
Theorem unknown_filter_shows_nothing (f : string) (logs : list AgentLog) :
  f ∉ ["all"; "thoughts"; "raw"; "actions"] ->
  (forall s, f <> AgentTerminal.stage_name s) ->
  AgentTerminal.filteredLogs f logs = [].
Proof.
  intros Hkw Hst. unfold AgentTerminal.filteredLogs.
  induction logs as [|log logs IH]; [done|]. simpl. rewrite IH.
  unfold AgentTerminal.keeps.
  repeat (apply not_elem_of_cons in Hkw as [Hne Hkw];
          apply String.eqb_neq in Hne; rewrite Hne; clear Hne).
  destruct (String.eqb_spec (AgentTerminal.stage_name (Log.stage log)) f) as [E|]; [|done].
  exfalso. by apply (Hst (Log.stage log)).
Qed.

Lemma unknown_filter_shows_nothing_witness :
  AgentTerminal.filteredLogs "errors" [system_entry clock0 "x"] = [].
Proof.
  apply unknown_filter_shows_nothing.
  - apply (bool_decide_unpack _). vm_compute. exact I.
  - intros []; discriminate.
Defined.

(** ** Relative times of the intervention timeline *)

(** X18. For a timestamp that is not in the future, [formatTimeDiff] prints
    whole hours from one hour on (with no larger unit, however old the
    timestamp), whole minutes between 1 and 59 from one minute to one hour,
    and whole seconds between 0 and 59 below one minute. *)
Theorem formatTimeDiff_units (now time : Z) :
  0 <= now - time ->
  (3600000 <= now - time ->
     formatTimeDiff now time = pretty ((now - time) `div` 3600000) +:+ "h ago" /\
     1 <= (now - time) `div` 3600000) /\
  (60000 <= now - time < 3600000 ->
     formatTimeDiff now time = pretty ((now - time) `div` 60000) +:+ "m ago" /\
     1 <= (now - time) `div` 60000 <= 59) /\
  (now - time < 60000 ->
     formatTimeDiff now time = pretty ((now - time) `div` 1000) +:+ "s ago" /\
     0 <= (now - time) `div` 1000 <= 59).
Proof.
  intros Hpos. unfold formatTimeDiff.
  set (diff := now - time) in *.
  assert (Hm : (diff `div` 1000) `div` 60 = diff `div` 60000)
    by (rewrite Z.div_div by lia; done).
  assert (Hh : ((diff `div` 1000) `div` 60) `div` 60 = diff `div` 3600000)
    by (rewrite !Z.div_div by lia; done).
  rewrite Hh, Hm.
  split; [|split]; intros Hd.
  - destruct (Z.ltb_spec 0 (diff `div` 3600000)) as [H|H];
      [split; [done|lia] | exfalso].
    assert (1 <= diff `div` 3600000) by (apply Z.div_le_lower_bound; lia). lia.
  - assert (diff `div` 3600000 = 0) by (apply Z.div_small; lia).
    assert (1 <= diff `div` 60000) by (apply Z.div_le_lower_bound; lia).
    assert (diff `div` 60000 < 60) by (apply Z.div_lt_upper_bound; lia).
    destruct (Z.ltb_spec 0 (diff `div` 3600000)); [lia|].
    destruct (Z.ltb_spec 0 (diff `div` 60000)); [|lia].
    split; [done|lia].
  - assert (diff `div` 3600000 = 0) by (apply Z.div_small; lia).
    assert (diff `div` 60000 = 0) by (apply Z.div_small; lia).
    assert (0 <= diff `div` 1000) by (apply Z.div_pos; lia).
    assert (diff `div` 1000 < 60) by (apply Z.div_lt_upper_bound; lia).
    destruct (Z.ltb_spec 0 (diff `div` 3600000)); [lia|].
    destruct (Z.ltb_spec 0 (diff `div` 60000)); [lia|].
    split; [done|lia].
Qed.

Lemma formatTimeDiff_units_witness :
  formatTimeDiff 1767225600000 1767225000000
  = pretty ((1767225600000 - 1767225000000) `div` 60000) +:+ "m ago" /\
  1 <= (1767225600000 - 1767225000000) `div` 60000 <= 59.
Proof.
  apply (proj1 (proj2 (formatTimeDiff_units 1767225600000 1767225000000
                         ltac:(lia)))).
  lia.
Defined.

(** X19. For a timestamp in the future, however far, [formatTimeDiff] prints
    a negative number of seconds, rounded away from zero, and never minutes
    or hours. *)
Theorem formatTimeDiff_future (now time : Z) :
  now < time ->
  formatTimeDiff now time = pretty ((now - time) `div` 1000) +:+ "s ago" /\
  (now - time) `div` 1000 <= -1 /\
  (now - time) `div` 1000 * 1000 <= now - time.
Proof.
  intros Hneg. unfold formatTimeDiff.
  set (diff := now - time) in *.
  assert (Hs : diff `div` 1000 <= -1).
  { assert (diff `div` 1000 < 0) by (apply Z.div_lt_upper_bound; lia). lia. }
  assert (Hm : (diff `div` 1000) `div` 60 <= -1).
  { assert ((diff `div` 1000) `div` 60 < 0) by (apply Z.div_lt_upper_bound; lia). lia. }
  assert (Hh : ((diff `div` 1000) `div` 60) `div` 60 <= -1).
  { assert (((diff `div` 1000) `div` 60) `div` 60 < 0)
      by (apply Z.div_lt_upper_bound; lia). lia. }
  destruct (Z.ltb_spec 0 (((diff `div` 1000) `div` 60) `div` 60)); [lia|].
  destruct (Z.ltb_spec 0 ((diff `div` 1000) `div` 60)); [lia|].
  split; [done|]. split; [done|].
  pose proof (Z.mul_div_le diff 1000 ltac:(lia)). lia.
Qed.

Lemma formatTimeDiff_future_witness :
  formatTimeDiff 1767225600000 1767229200001
  = pretty ((1767225600000 - 1767229200001) `div` 1000) +:+ "s ago" /\
  (1767225600000 - 1767229200001) `div` 1000 <= -1 /\
  (1767225600000 - 1767229200001) `div` 1000 * 1000
  <= 1767225600000 - 1767229200001.
Proof. apply formatTimeDiff_future. lia. Defined.

(** ** Colours and thresholds *)

(** X20. The colour of a success rate and the simulator's status thresholds
    agree at the ends and differ in between: a rate shown green is healthy, a
    rate that is down is shown red, a degraded rate is never green; but a
    healthy rate below 95 is shown amber. *)
Theorem color_and_status (rate : Q) :
  (getSuccessRateColor rate = "text-emerald-500" -> status_of rate = Bank.healthy) /\
  (status_of rate = Bank.down -> getSuccessRateColor rate = "text-red-500") /\
  (status_of rate = Bank.degraded -> getSuccessRateColor rate <> "text-emerald-500") /\
  ((92 <= rate)%Q -> (rate < 95)%Q ->
     status_of rate = Bank.healthy /\ getSuccessRateColor rate = "text-amber-500").
Proof.
  unfold getSuccessRateColor, status_of, JS.lt.
  destruct (Qle_bool 95 rate) eqn:E95;
    [apply Qle_bool_iff in E95 | apply Qle_bool_false in E95];
  (destruct (Qle_bool 90 rate) eqn:E90;
    [apply Qle_bool_iff in E90 | apply Qle_bool_false in E90]);
  (destruct (Qle_bool 85 rate) eqn:E85;
    [apply Qle_bool_iff in E85 | apply Qle_bool_false in E85]);
  (destruct (Qle_bool 92 rate) eqn:E92;
    [apply Qle_bool_iff in E92 | apply Qle_bool_false in E92]);
  simpl; repeat split; try done; try lra.
Qed.

Lemma color_and_status_witness :
  status_of 93 = Bank.healthy /\ getSuccessRateColor 93 = "text-amber-500".
Proof.
  apply (proj2 (proj2 (proj2 (color_and_status 93)))); simpl; lra.
Defined.

(** ** Chaos scenarios *)

(** X21. For any four values of [Math.random()], [triggerChaos] builds a
    scenario: its bank is one of HDFC, ICICI, SBI, AXIS (never "ALL"), its
    method is "all", and failureIncrease, latencyIncrease and duration are
    integers in [20,79], [500,1999] and [30,149]. *)
Theorem chaos_scenario_ranges (r1 r2 r3 r4 : Q) :
  unit_draw r1 -> unit_draw r2 -> unit_draw r3 -> unit_draw r4 ->
  exists sc (f l d : Z),
    chaosScenario r1 r2 r3 r4 = Some sc /\
    Scenario.targetBank sc ∈ ["HDFC"; "ICICI"; "SBI"; "AXIS"] /\
    Scenario.targetMethod sc = "all" /\
    Scenario.failureIncrease sc = (inject_Z f + 20)%Q /\ 0 <= f <= 59 /\
    Scenario.latencyIncrease sc = (inject_Z l + 500)%Q /\ 0 <= l <= 1499 /\
    Scenario.duration sc = (inject_Z d + 30)%Q /\ 0 <= d <= 119.
Proof.
  intros [Hb0 Hb1] [Hf0 Hf1] [Hl0 Hl1] [Hd0 Hd1].
  destruct (pick_Some r1 chaos_banks Hb0 Hb1 ltac:(done)) as (bank & Hpick & Hin).
  assert (Hfloor : forall r n, (0 <= r)%Q -> (r < 1)%Q -> 0 < n ->
            0 <= Qfloor (r * inject_Z n) <= n - 1).
  { intros r n H0 H1 Hn. split.
    - rewrite <- (Qfloor_Z 0). apply Qfloor_resp_le.
      apply Qmult_le_0_compat; [done|]. change 0%Q with (inject_Z 0).
      rewrite <- Zle_Qle. lia.
    - cut (Qfloor (r * inject_Z n) < n); [lia|].
      rewrite Zlt_Qlt. eapply Qle_lt_trans; [apply Qfloor_le|].
      rewrite <- (Qmult_1_l (inject_Z n)) at 2.
      apply Qmult_lt_r; [|done]. change 0%Q with (inject_Z 0).
      rewrite <- Zlt_Qlt. lia. }
  eexists _, (Qfloor (r2 * 60)), (Qfloor (r3 * 1500)), (Qfloor (r4 * 120)).
  unfold chaosScenario. rewrite Hpick. simpl.
  split; [reflexivity|]. simpl. split; [exact Hin|]. split; [done|].
  split; [done|]. split; [apply (Hfloor r2 60); done || lia|].
  split; [done|]. split; [apply (Hfloor r3 1500); done || lia|].
  split; [done|]. apply (Hfloor r4 120); done || lia.
Qed.

Lemma chaos_scenario_ranges_witness :
  exists sc (f l d : Z),
    chaosScenario 0.75 0.5 0.25 0.125 = Some sc /\
    Scenario.targetBank sc ∈ ["HDFC"; "ICICI"; "SBI"; "AXIS"] /\
    Scenario.targetMethod sc = "all" /\
    Scenario.failureIncrease sc = (inject_Z f + 20)%Q /\ 0 <= f <= 59 /\
    Scenario.latencyIncrease sc = (inject_Z l + 500)%Q /\ 0 <= l <= 1499 /\
    Scenario.duration sc = (inject_Z d + 30)%Q /\ 0 <= d <= 119.
Proof.
  apply chaos_scenario_ranges; split; simpl; lra.
Defined.

(** ** Rejecting everything *)

Section RejectAll.
Implicit Types (st : Dashboard).

Lemma filter_all {A} (P : A -> Prop) `{forall x, Decision (P x)} (l : list A) :
  (forall x, x ∈ l -> P x) -> filter P l = l.
Proof.
  induction l as [|x l IH]; intros Hl; [done|].
  rewrite filter_cons_True by (apply Hl; left).
  f_equal. apply IH. intros y Hy. apply Hl. by right.
Qed.

Lemma settle_rejections_state settled st :
  settle_rejections settled st
  = setPendingApprovals
      (fun _ => filter (fun p => Approval.intervention_id p ∉ queued_ids (settled.*2))
                       (pendingApprovals st)) st.
Proof.
  induction settled as [|[r a] settled IH] using rev_ind.
  - unfold settle_rejections, setPendingApprovals. simpl.
    rewrite filter_all by (intros p _; apply not_elem_of_nil). by destruct st.
  - unfold settle_rejections in *. rewrite foldl_snoc, IH. simpl.
    unfold handleReject, setPendingApprovals. simpl. f_equal.
    unfold resolve. rewrite list_filter_filter. apply list_filter_iff.
    intros p. unfold queued_ids. rewrite !fmap_app. simpl.
    rewrite not_elem_of_app, list_elem_of_singleton. tauto.
Qed.
End RejectAll.

(** X22. Rejecting the queued requests one by one, in any order and however
    the HTTP calls end, leaves the state reject-all leaves: an empty queue,
    and ledger, log store and metrics untouched. *)
Theorem reject_each_is_reject_all (settled : list (FetchResult * ApprovalRequest))
    (st : Dashboard) :
  settled.*2 ≡ₚ pendingApprovals st ->
  settle_rejections settled st = handleRejectAll st.
Proof.
  intros Hperm. rewrite settle_rejections_state.
  unfold handleRejectAll, setPendingApprovals. f_equal.
  apply filter_none. intros p Hp Hnot. apply Hnot.
  unfold queued_ids. rewrite Hperm. by apply list_elem_of_fmap_2.
Qed.

Lemma reject_each_is_reject_all_witness :
  settle_rejections [(Rejected, request 0); (Resolved false, request 1)]
    (setPendingApprovals (fun _ => [request 1; request 0]) (initial clock0))
  = handleRejectAll
      (setPendingApprovals (fun _ => [request 1; request 0]) (initial clock0)).
Proof.
  apply reject_each_is_reject_all. simpl. apply Permutation_swap.
Defined.

(** ** Identifiers of the entries the client builds *)

(** X23. Two log entries built by the client have the same id exactly when
    the same writer built them at the same [Date.now()]; entries of different
    writers never share an id. *)
Theorem client_log_ids (c1 c2 : JS.Clock) (t1 t2 : string)
    (s1 s2 : Log.Stage) (m1 m2 : Log.Kind * string)
    (i1 i2 : Intervention) (a1 a2 : ApprovalRequest) :
  (Log.id (system_entry c1 t1) = Log.id (system_entry c2 t2)
   <-> JS.now c1 = JS.now c2) /\
  (Log.id (useSimulation.demo_entry c1 s1 m1) = Log.id (useSimulation.demo_entry c2 s2 m2)
   <-> JS.now c1 = JS.now c2) /\
  (Log.id (action_entry c1 i1) = Log.id (action_entry c2 i2)
   <-> JS.now c1 = JS.now c2) /\
  (Log.id (approved_entry c1 a1) = Log.id (approved_entry c2 a2)
   <-> JS.now c1 = JS.now c2) /\
  Log.id (system_entry c1 t1) <> Log.id (useSimulation.demo_entry c2 s2 m2) /\
  Log.id (system_entry c1 t1) <> Log.id (action_entry c2 i2) /\
  Log.id (system_entry c1 t1) <> Log.id (approved_entry c2 a2) /\
  Log.id (useSimulation.demo_entry c1 s1 m1) <> Log.id (action_entry c2 i2) /\
  Log.id (useSimulation.demo_entry c1 s1 m1) <> Log.id (approved_entry c2 a2) /\
  Log.id (action_entry c1 i1) <> Log.id (approved_entry c2 a2).
Proof.
  assert (Hcons : forall a s t, String a s +:+ t = String a (s +:+ t)) by done.
  assert (Hsame : forall (prefix : string) (x y : Z),
            prefix +:+ pretty x = prefix +:+ pretty y <-> x = y).
  { intros prefix x y. split; [|by intros ->].
    intros H. apply (inj (String.app prefix)) in H. by apply (inj pretty) in H. }
  cbn [Log.id system_entry useSimulation.demo_entry action_entry approved_entry].
  repeat split; try apply Hsame; try (by intros ->%Hsame);
    rewrite !Hcons; discriminate.
Qed.
